(** * Slippi playback: seek, savestate and diff bookkeeping

    A shallow embedding of [SlippiPlayback.cpp] (the replay seek engine of
    the Slippi build of Ishiiruka) and the properties of its frame
    arithmetic, its seek servicing and its reset path.

    Conventions.
    - [s32] values are integers in [Z]; every addition and subtraction that
      can leave the 32-bit range is written with [wrap32] (two's complement,
      which is what the [u32] and atomic operations are defined to do and
      what the compiled [int] additions and subtractions do).  The two
      operations of [emod] that have no value in 32 bits, the remainder
      [INT_MIN % -1] (a division trap) and [std::abs(INT_MIN)], end the
      computation: [emod] is [None] there.
    - The playback status object, the replay communication settings, the
      emulator core state and the configuration are fields of one [World]
      record which the operations pass along explicitly.
    - Calls into the emulator ([Core::SetState], [State::LoadFromBuffer],
      condition variables, ...) are recorded, most recent first, in the
      [trace] field of the world. *)

From Stdlib Require Import ZArith Lia Bool List.
From stdpp Require Import base option gmap strings list.

Local Open Scope Z_scope.

(** ** 32-bit signed integers *)

Definition INT_MIN : Z := -2147483648.
Definition INT_MAX : Z := 2147483647.

Definition in_s32 (z : Z) : Prop := INT_MIN <= z <= INT_MAX.

(** Two's complement reduction into the [s32] range. *)
Definition wrap32 (z : Z) : Z := (z + 2147483648) mod 4294967296 - 2147483648.

(** ** Frame arithmetic *)

Definition FRAME_INTERVAL : Z := 900.
Definition SLEEP_TIME_MS : Z := 8.

(** [s32 emod(s32 a, s32 b)].  [None] is a call that returns no value:
    - [assert(b != 0)] fails;
    - [a % b] is the truncating remainder [Z.rem], except for
      [INT_MIN % -1], whose quotient is not an [int]: the behaviour is
      undefined and the division instruction traps;
    - [std::abs(b)] is evaluated when the remainder is negative, and is
      undefined for [INT_MIN].
    The sum [r + std::abs(b)] is an [int] addition. *)
Definition emod (a b : Z) : option Z :=
  if b =? 0 then None
  else if (a =? INT_MIN) && (b =? -1) then None
  else
    let r := Z.rem a b in
    if r >=? 0 then Some r
    else if b =? INT_MIN then None
    else Some (wrap32 (r + Z.abs b)).

(** The expression of [SeekThread] that rounds a frame down to a savestate
    frame, [frame - emod(frame - firstFrame, interval)], with the first
    frame and the interval as arguments. *)
Definition nearestIntervalFrame (frame firstFrame interval : Z) : option Z :=
  m ← emod (wrap32 (frame - firstFrame)) interval;
  Some (wrap32 (frame - m)).

(** ** Program state *)

Abbreviation bytes := (list Byte.byte).

(** [Core::EState]; [SeekThread] compares with and sets [CORE_PAUSE] and
    [CORE_RUN] only. *)
Inductive EState := CORE_UNINITIALIZED | CORE_PAUSE | CORE_RUN | CORE_STOPPING.

Definition EState_eqb (a b : EState) : bool :=
  match a, b with
  | CORE_UNINITIALIZED, CORE_UNINITIALIZED | CORE_PAUSE, CORE_PAUSE
  | CORE_RUN, CORE_RUN | CORE_STOPPING, CORE_STOPPING => true
  | _, _ => false
  end.

(** The three file-level condition variables. *)
Inductive CondVar := condVar | cv_waitingForTargetFrame | cv_processingDiff.

Inductive ThreadId := SavestateThreadId | SeekThreadId.

(** Calls that leave the file. *)
Inductive Call :=
| Core_SetState (s : EState)
| State_LoadFromBuffer (b : bytes)
| State_SaveToBuffer
| notify_one (cv : CondVar)
| cv_wait (cv : CondVar)
| detach (t : ThreadId)
| SleepCurrentThread (ms : Z).

(** Where the seek thread stands.  It blocks in the middle of a loop
    iteration, in [cv_waitingForTargetFrame.wait], with only the local
    [paused] still live. *)
Inductive SeekPc :=
| SeekNotStarted
| SeekAtLoop
| SeekInFfwWait (paused : bool)
| SeekWoken (paused : bool)
| SeekExited.

(** The members of [SlippiPlaybackStatus].  [futureDiffs] maps a frame to
    the diff its [std::future] delivers; the two thread members are kept as
    their [joinable()] bit. *)
Record SlippiPlaybackStatus := {
  shouldJumpBack : bool;
  shouldJumpForward : bool;
  inSlippiPlayback : bool;
  shouldRunThreads : bool;
  isHardFFW : bool;
  isSoftFFW : bool;
  lastFFWFrame : Z;
  currentPlaybackFrame : Z;
  targetFrameNum : Z;
  latestFrame : Z;
  iState : bytes;
  cState : bytes;
  futureDiffs : gmap Z bytes;
  m_savestateThread : bool;
  m_seekThread : bool
}.

(** Everything the file reads or writes: the playback status object, the
    replay communication settings ([g_replayComm]), the emulator core state,
    the emulated machine's full state as [State::SaveToBuffer] would capture
    it, the three [SConfig] fields, the atomic diff counter, the number of
    [std::async] tasks launched whose [processDiff] has not begun, the seek
    thread's position, and the calls made so far. *)
Record World := {
  g_playbackStatus :> SlippiPlaybackStatus;
  replayComm_mode : string;
  current_startFrame : Z;
  current_endFrame : Z;
  coreState : EState;
  emuState : bytes;
  m_OCEnable : bool;
  m_OCFactor : Z;
  bHideCursor : bool;
  numDiffsProcessing : Z;
  asyncPending : nat;
  seekPc : SeekPc;
  trace : list Call
}.

(** *** Field updates *)

Definition with_status (w : World) (s : SlippiPlaybackStatus) : World :=
  {| g_playbackStatus := s; replayComm_mode := replayComm_mode w;
     current_startFrame := current_startFrame w;
     current_endFrame := current_endFrame w; coreState := coreState w;
     emuState := emuState w; m_OCEnable := m_OCEnable w;
     m_OCFactor := m_OCFactor w; bHideCursor := bHideCursor w;
     numDiffsProcessing := numDiffsProcessing w;
     asyncPending := asyncPending w; seekPc := seekPc w; trace := trace w |}.

Definition set_shouldJumpBack (v : bool) (w : World) : World :=
  with_status w (let s := g_playbackStatus w in
    {| shouldJumpBack := v; shouldJumpForward := shouldJumpForward s;
       inSlippiPlayback := inSlippiPlayback s;
       shouldRunThreads := shouldRunThreads s; isHardFFW := isHardFFW s;
       isSoftFFW := isSoftFFW s; lastFFWFrame := lastFFWFrame s;
       currentPlaybackFrame := currentPlaybackFrame s;
       targetFrameNum := targetFrameNum s; latestFrame := latestFrame s;
       iState := iState s; cState := cState s; futureDiffs := futureDiffs s;
       m_savestateThread := m_savestateThread s;
       m_seekThread := m_seekThread s |}).

Definition set_shouldJumpForward (v : bool) (w : World) : World :=
  with_status w (let s := g_playbackStatus w in
    {| shouldJumpBack := shouldJumpBack s; shouldJumpForward := v;
       inSlippiPlayback := inSlippiPlayback s;
       shouldRunThreads := shouldRunThreads s; isHardFFW := isHardFFW s;
       isSoftFFW := isSoftFFW s; lastFFWFrame := lastFFWFrame s;
       currentPlaybackFrame := currentPlaybackFrame s;
       targetFrameNum := targetFrameNum s; latestFrame := latestFrame s;
       iState := iState s; cState := cState s; futureDiffs := futureDiffs s;
       m_savestateThread := m_savestateThread s;
       m_seekThread := m_seekThread s |}).

Definition set_inSlippiPlayback (v : bool) (w : World) : World :=
  with_status w (let s := g_playbackStatus w in
    {| shouldJumpBack := shouldJumpBack s;
       shouldJumpForward := shouldJumpForward s; inSlippiPlayback := v;
       shouldRunThreads := shouldRunThreads s; isHardFFW := isHardFFW s;
       isSoftFFW := isSoftFFW s; lastFFWFrame := lastFFWFrame s;
       currentPlaybackFrame := currentPlaybackFrame s;
       targetFrameNum := targetFrameNum s; latestFrame := latestFrame s;
       iState := iState s; cState := cState s; futureDiffs := futureDiffs s;
       m_savestateThread := m_savestateThread s;
       m_seekThread := m_seekThread s |}).

Definition set_shouldRunThreads (v : bool) (w : World) : World :=
  with_status w (let s := g_playbackStatus w in
    {| shouldJumpBack := shouldJumpBack s;
       shouldJumpForward := shouldJumpForward s;
       inSlippiPlayback := inSlippiPlayback s; shouldRunThreads := v;
       isHardFFW := isHardFFW s; isSoftFFW := isSoftFFW s;
       lastFFWFrame := lastFFWFrame s;
       currentPlaybackFrame := currentPlaybackFrame s;
       targetFrameNum := targetFrameNum s; latestFrame := latestFrame s;
       iState := iState s; cState := cState s; futureDiffs := futureDiffs s;
       m_savestateThread := m_savestateThread s;
       m_seekThread := m_seekThread s |}).

Definition set_isHardFFW (v : bool) (w : World) : World :=
  with_status w (let s := g_playbackStatus w in
    {| shouldJumpBack := shouldJumpBack s;
       shouldJumpForward := shouldJumpForward s;
       inSlippiPlayback := inSlippiPlayback s;
       shouldRunThreads := shouldRunThreads s; isHardFFW := v;
       isSoftFFW := isSoftFFW s; lastFFWFrame := lastFFWFrame s;
       currentPlaybackFrame := currentPlaybackFrame s;
       targetFrameNum := targetFrameNum s; latestFrame := latestFrame s;
       iState := iState s; cState := cState s; futureDiffs := futureDiffs s;
       m_savestateThread := m_savestateThread s;
       m_seekThread := m_seekThread s |}).

Definition set_isSoftFFW (v : bool) (w : World) : World :=
  with_status w (let s := g_playbackStatus w in
    {| shouldJumpBack := shouldJumpBack s;
       shouldJumpForward := shouldJumpForward s;
       inSlippiPlayback := inSlippiPlayback s;
       shouldRunThreads := shouldRunThreads s; isHardFFW := isHardFFW s;
       isSoftFFW := v; lastFFWFrame := lastFFWFrame s;
       currentPlaybackFrame := currentPlaybackFrame s;
       targetFrameNum := targetFrameNum s; latestFrame := latestFrame s;
       iState := iState s; cState := cState s; futureDiffs := futureDiffs s;
       m_savestateThread := m_savestateThread s;
       m_seekThread := m_seekThread s |}).

Definition set_lastFFWFrame (v : Z) (w : World) : World :=
  with_status w (let s := g_playbackStatus w in
    {| shouldJumpBack := shouldJumpBack s;
       shouldJumpForward := shouldJumpForward s;
       inSlippiPlayback := inSlippiPlayback s;
       shouldRunThreads := shouldRunThreads s; isHardFFW := isHardFFW s;
       isSoftFFW := isSoftFFW s; lastFFWFrame := v;
       currentPlaybackFrame := currentPlaybackFrame s;
       targetFrameNum := targetFrameNum s; latestFrame := latestFrame s;
       iState := iState s; cState := cState s; futureDiffs := futureDiffs s;
       m_savestateThread := m_savestateThread s;
       m_seekThread := m_seekThread s |}).

Definition set_currentPlaybackFrame (v : Z) (w : World) : World :=
  with_status w (let s := g_playbackStatus w in
    {| shouldJumpBack := shouldJumpBack s;
       shouldJumpForward := shouldJumpForward s;
       inSlippiPlayback := inSlippiPlayback s;
       shouldRunThreads := shouldRunThreads s; isHardFFW := isHardFFW s;
       isSoftFFW := isSoftFFW s; lastFFWFrame := lastFFWFrame s;
       currentPlaybackFrame := v; targetFrameNum := targetFrameNum s;
       latestFrame := latestFrame s; iState := iState s; cState := cState s;
       futureDiffs := futureDiffs s;
       m_savestateThread := m_savestateThread s;
       m_seekThread := m_seekThread s |}).

Definition set_targetFrameNum (v : Z) (w : World) : World :=
  with_status w (let s := g_playbackStatus w in
    {| shouldJumpBack := shouldJumpBack s;
       shouldJumpForward := shouldJumpForward s;
       inSlippiPlayback := inSlippiPlayback s;
       shouldRunThreads := shouldRunThreads s; isHardFFW := isHardFFW s;
       isSoftFFW := isSoftFFW s; lastFFWFrame := lastFFWFrame s;
       currentPlaybackFrame := currentPlaybackFrame s; targetFrameNum := v;
       latestFrame := latestFrame s; iState := iState s; cState := cState s;
       futureDiffs := futureDiffs s;
       m_savestateThread := m_savestateThread s;
       m_seekThread := m_seekThread s |}).

Definition set_latestFrame (v : Z) (w : World) : World :=
  with_status w (let s := g_playbackStatus w in
    {| shouldJumpBack := shouldJumpBack s;
       shouldJumpForward := shouldJumpForward s;
       inSlippiPlayback := inSlippiPlayback s;
       shouldRunThreads := shouldRunThreads s; isHardFFW := isHardFFW s;
       isSoftFFW := isSoftFFW s; lastFFWFrame := lastFFWFrame s;
       currentPlaybackFrame := currentPlaybackFrame s;
       targetFrameNum := targetFrameNum s; latestFrame := v;
       iState := iState s; cState := cState s; futureDiffs := futureDiffs s;
       m_savestateThread := m_savestateThread s;
       m_seekThread := m_seekThread s |}).

Definition set_iState (v : bytes) (w : World) : World :=
  with_status w (let s := g_playbackStatus w in
    {| shouldJumpBack := shouldJumpBack s;
       shouldJumpForward := shouldJumpForward s;
       inSlippiPlayback := inSlippiPlayback s;
       shouldRunThreads := shouldRunThreads s; isHardFFW := isHardFFW s;
       isSoftFFW := isSoftFFW s; lastFFWFrame := lastFFWFrame s;
       currentPlaybackFrame := currentPlaybackFrame s;
       targetFrameNum := targetFrameNum s; latestFrame := latestFrame s;
       iState := v; cState := cState s; futureDiffs := futureDiffs s;
       m_savestateThread := m_savestateThread s;
       m_seekThread := m_seekThread s |}).

Definition set_cState (v : bytes) (w : World) : World :=
  with_status w (let s := g_playbackStatus w in
    {| shouldJumpBack := shouldJumpBack s;
       shouldJumpForward := shouldJumpForward s;
       inSlippiPlayback := inSlippiPlayback s;
       shouldRunThreads := shouldRunThreads s; isHardFFW := isHardFFW s;
       isSoftFFW := isSoftFFW s; lastFFWFrame := lastFFWFrame s;
       currentPlaybackFrame := currentPlaybackFrame s;
       targetFrameNum := targetFrameNum s; latestFrame := latestFrame s;
       iState := iState s; cState := v; futureDiffs := futureDiffs s;
       m_savestateThread := m_savestateThread s;
       m_seekThread := m_seekThread s |}).

Definition set_futureDiffs (v : gmap Z bytes) (w : World) : World :=
  with_status w (let s := g_playbackStatus w in
    {| shouldJumpBack := shouldJumpBack s;
       shouldJumpForward := shouldJumpForward s;
       inSlippiPlayback := inSlippiPlayback s;
       shouldRunThreads := shouldRunThreads s; isHardFFW := isHardFFW s;
       isSoftFFW := isSoftFFW s; lastFFWFrame := lastFFWFrame s;
       currentPlaybackFrame := currentPlaybackFrame s;
       targetFrameNum := targetFrameNum s; latestFrame := latestFrame s;
       iState := iState s; cState := cState s; futureDiffs := v;
       m_savestateThread := m_savestateThread s;
       m_seekThread := m_seekThread s |}).

Definition set_m_savestateThread (v : bool) (w : World) : World :=
  with_status w (let s := g_playbackStatus w in
    {| shouldJumpBack := shouldJumpBack s;
       shouldJumpForward := shouldJumpForward s;
       inSlippiPlayback := inSlippiPlayback s;
       shouldRunThreads := shouldRunThreads s; isHardFFW := isHardFFW s;
       isSoftFFW := isSoftFFW s; lastFFWFrame := lastFFWFrame s;
       currentPlaybackFrame := currentPlaybackFrame s;
       targetFrameNum := targetFrameNum s; latestFrame := latestFrame s;
       iState := iState s; cState := cState s; futureDiffs := futureDiffs s;
       m_savestateThread := v; m_seekThread := m_seekThread s |}).

Definition set_m_seekThread (v : bool) (w : World) : World :=
  with_status w (let s := g_playbackStatus w in
    {| shouldJumpBack := shouldJumpBack s;
       shouldJumpForward := shouldJumpForward s;
       inSlippiPlayback := inSlippiPlayback s;
       shouldRunThreads := shouldRunThreads s; isHardFFW := isHardFFW s;
       isSoftFFW := isSoftFFW s; lastFFWFrame := lastFFWFrame s;
       currentPlaybackFrame := currentPlaybackFrame s;
       targetFrameNum := targetFrameNum s; latestFrame := latestFrame s;
       iState := iState s; cState := cState s; futureDiffs := futureDiffs s;
       m_savestateThread := m_savestateThread s; m_seekThread := v |}).

Definition set_replayComm_mode (v : string) (w : World) : World :=
  {| g_playbackStatus := g_playbackStatus w; replayComm_mode := v;
     current_startFrame := current_startFrame w;
     current_endFrame := current_endFrame w; coreState := coreState w;
     emuState := emuState w; m_OCEnable := m_OCEnable w;
     m_OCFactor := m_OCFactor w; bHideCursor := bHideCursor w;
     numDiffsProcessing := numDiffsProcessing w;
     asyncPending := asyncPending w; seekPc := seekPc w; trace := trace w |}.

Definition set_current_startFrame (v : Z) (w : World) : World :=
  {| g_playbackStatus := g_playbackStatus w;
     replayComm_mode := replayComm_mode w; current_startFrame := v;
     current_endFrame := current_endFrame w; coreState := coreState w;
     emuState := emuState w; m_OCEnable := m_OCEnable w;
     m_OCFactor := m_OCFactor w; bHideCursor := bHideCursor w;
     numDiffsProcessing := numDiffsProcessing w;
     asyncPending := asyncPending w; seekPc := seekPc w; trace := trace w |}.

Definition set_current_endFrame (v : Z) (w : World) : World :=
  {| g_playbackStatus := g_playbackStatus w;
     replayComm_mode := replayComm_mode w;
     current_startFrame := current_startFrame w; current_endFrame := v;
     coreState := coreState w; emuState := emuState w;
     m_OCEnable := m_OCEnable w; m_OCFactor := m_OCFactor w;
     bHideCursor := bHideCursor w;
     numDiffsProcessing := numDiffsProcessing w;
     asyncPending := asyncPending w; seekPc := seekPc w; trace := trace w |}.

Definition set_coreState (v : EState) (w : World) : World :=
  {| g_playbackStatus := g_playbackStatus w;
     replayComm_mode := replayComm_mode w;
     current_startFrame := current_startFrame w;
     current_endFrame := current_endFrame w; coreState := v;
     emuState := emuState w; m_OCEnable := m_OCEnable w;
     m_OCFactor := m_OCFactor w; bHideCursor := bHideCursor w;
     numDiffsProcessing := numDiffsProcessing w;
     asyncPending := asyncPending w; seekPc := seekPc w; trace := trace w |}.

Definition set_emuState (v : bytes) (w : World) : World :=
  {| g_playbackStatus := g_playbackStatus w;
     replayComm_mode := replayComm_mode w;
     current_startFrame := current_startFrame w;
     current_endFrame := current_endFrame w; coreState := coreState w;
     emuState := v; m_OCEnable := m_OCEnable w; m_OCFactor := m_OCFactor w;
     bHideCursor := bHideCursor w;
     numDiffsProcessing := numDiffsProcessing w;
     asyncPending := asyncPending w; seekPc := seekPc w; trace := trace w |}.

Definition set_m_OCEnable (v : bool) (w : World) : World :=
  {| g_playbackStatus := g_playbackStatus w;
     replayComm_mode := replayComm_mode w;
     current_startFrame := current_startFrame w;
     current_endFrame := current_endFrame w; coreState := coreState w;
     emuState := emuState w; m_OCEnable := v; m_OCFactor := m_OCFactor w;
     bHideCursor := bHideCursor w;
     numDiffsProcessing := numDiffsProcessing w;
     asyncPending := asyncPending w; seekPc := seekPc w; trace := trace w |}.

Definition set_m_OCFactor (v : Z) (w : World) : World :=
  {| g_playbackStatus := g_playbackStatus w;
     replayComm_mode := replayComm_mode w;
     current_startFrame := current_startFrame w;
     current_endFrame := current_endFrame w; coreState := coreState w;
     emuState := emuState w; m_OCEnable := m_OCEnable w; m_OCFactor := v;
     bHideCursor := bHideCursor w;
     numDiffsProcessing := numDiffsProcessing w;
     asyncPending := asyncPending w; seekPc := seekPc w; trace := trace w |}.

Definition set_bHideCursor (v : bool) (w : World) : World :=
  {| g_playbackStatus := g_playbackStatus w;
     replayComm_mode := replayComm_mode w;
     current_startFrame := current_startFrame w;
     current_endFrame := current_endFrame w; coreState := coreState w;
     emuState := emuState w; m_OCEnable := m_OCEnable w;
     m_OCFactor := m_OCFactor w; bHideCursor := v;
     numDiffsProcessing := numDiffsProcessing w;
     asyncPending := asyncPending w; seekPc := seekPc w; trace := trace w |}.

Definition set_numDiffsProcessing (v : Z) (w : World) : World :=
  {| g_playbackStatus := g_playbackStatus w;
     replayComm_mode := replayComm_mode w;
     current_startFrame := current_startFrame w;
     current_endFrame := current_endFrame w; coreState := coreState w;
     emuState := emuState w; m_OCEnable := m_OCEnable w;
     m_OCFactor := m_OCFactor w; bHideCursor := bHideCursor w;
     numDiffsProcessing := v; asyncPending := asyncPending w;
     seekPc := seekPc w; trace := trace w |}.

Definition set_asyncPending (v : nat) (w : World) : World :=
  {| g_playbackStatus := g_playbackStatus w;
     replayComm_mode := replayComm_mode w;
     current_startFrame := current_startFrame w;
     current_endFrame := current_endFrame w; coreState := coreState w;
     emuState := emuState w; m_OCEnable := m_OCEnable w;
     m_OCFactor := m_OCFactor w; bHideCursor := bHideCursor w;
     numDiffsProcessing := numDiffsProcessing w; asyncPending := v;
     seekPc := seekPc w; trace := trace w |}.

Definition set_seekPc (v : SeekPc) (w : World) : World :=
  {| g_playbackStatus := g_playbackStatus w;
     replayComm_mode := replayComm_mode w;
     current_startFrame := current_startFrame w;
     current_endFrame := current_endFrame w; coreState := coreState w;
     emuState := emuState w; m_OCEnable := m_OCEnable w;
     m_OCFactor := m_OCFactor w; bHideCursor := bHideCursor w;
     numDiffsProcessing := numDiffsProcessing w;
     asyncPending := asyncPending w; seekPc := v; trace := trace w |}.

Definition set_trace (v : list Call) (w : World) : World :=
  {| g_playbackStatus := g_playbackStatus w;
     replayComm_mode := replayComm_mode w;
     current_startFrame := current_startFrame w;
     current_endFrame := current_endFrame w; coreState := coreState w;
     emuState := emuState w; m_OCEnable := m_OCEnable w;
     m_OCFactor := m_OCFactor w; bHideCursor := bHideCursor w;
     numDiffsProcessing := numDiffsProcessing w;
     asyncPending := asyncPending w; seekPc := seekPc w; trace := v |}.

(** *** Calls into the emulator *)

Definition emit (c : Call) (w : World) : World := set_trace (c :: trace w) w.

(** [Core::SetState(s)]. *)
Definition SetState (s : EState) (w : World) : World :=
  emit (Core_SetState s) (set_coreState s w).

(** [State::LoadFromBuffer(b)]: the machine takes the state in [b]. *)
Definition LoadFromBuffer (b : bytes) (w : World) : World :=
  emit (State_LoadFromBuffer b) (set_emuState b w).

(** [cv.notify_one()].  A seek thread blocked in
    [cv_waitingForTargetFrame.wait] is released by a notification of that
    condition variable and by no other. *)
Definition notify (cv : CondVar) (w : World) : World :=
  let w := emit (notify_one cv) w in
  match cv, seekPc w with
  | cv_waitingForTargetFrame, SeekInFfwWait paused =>
      set_seekPc (SeekWoken paused) w
  | _, _ => w
  end.

Definition sleep (w : World) : World := emit (SleepCurrentThread SLEEP_TIME_MS) w.

(** ** The operations of [SlippiPlayback.cpp] *)

(** [Slippi::GAME_FIRST_FRAME] and [Slippi::PLAYBACK_FIRST_SAVE] are declared
    in a header that is not part of the sources, and the VCDIFF encoder and
    decoder belong to a library: the operations take all four from their
    context. *)
Class Externals := {
  GAME_FIRST_FRAME : Z;
  PLAYBACK_FIRST_SAVE : Z;
  vcdiff_encode : bytes -> bytes -> bytes;
  vcdiff_decode : bytes -> bytes -> bytes
}.

Section Playback.

Context `{Externals}.

(** [processDiff], first half: the counter goes up, whatever its value. *)
Definition processDiff_enter (w : World) : World :=
  let w := set_numDiffsProcessing (wrap32 (numDiffsProcessing w + 1)) w in
  notify cv_processingDiff w.

(** [processDiff], second half, once the encoder has returned. *)
Definition processDiff_exit (w : World) : World :=
  let w := set_numDiffsProcessing (wrap32 (numDiffsProcessing w - 1)) w in
  notify cv_processingDiff w.

(** [SlippiPlaybackStatus::SlippiPlaybackStatus()]. *)
Definition SlippiPlaybackStatus_new : SlippiPlaybackStatus :=
  {| shouldJumpBack := false; shouldJumpForward := false;
     inSlippiPlayback := false; shouldRunThreads := false;
     isHardFFW := false; isSoftFFW := false;
     lastFFWFrame := INT_MIN; currentPlaybackFrame := INT_MIN;
     targetFrameNum := INT_MAX; latestFrame := GAME_FIRST_FRAME;
     iState := []; cState := []; futureDiffs := ∅;
     m_savestateThread := false; m_seekThread := false |}.

Definition startThreads (w : World) : World :=
  let w := set_shouldRunThreads true w in
  let w := set_m_savestateThread true w in
  let w := set_m_seekThread true w in
  set_seekPc SeekAtLoop w.

(** The loop at the head of [prepareSlippiPlayback]: the host blocks while
    this holds. *)
Definition tooManyDiffs (w : World) : bool :=
  shouldRunThreads w && (numDiffsProcessing w >? 3).

(** [prepareSlippiPlayback(frameIndex)]; [None] while the host is blocked in
    [cv_processingDiff.wait]. *)
Definition prepareSlippiPlayback (frameIndex : Z) (w : World) : option World :=
  if tooManyDiffs w then None
  else
    let w :=
      if shouldRunThreads w
         && (Z.rem (wrap32 (currentPlaybackFrame w + 122)) FRAME_INTERVAL =? 0)
      then notify condVar w else w in
    if inSlippiPlayback w && (frameIndex >=? targetFrameNum w) then
      let w :=
        if targetFrameNum w <? currentPlaybackFrame w
        then set_currentPlaybackFrame (targetFrameNum w) w else w in
      Some (notify cv_waitingForTargetFrame w)
    else Some w.

(** [resetPlayback()]. *)
Definition resetPlayback (w : World) : World :=
  let w :=
    if shouldRunThreads w then
      let w := set_shouldRunThreads false w in
      let w :=
        if m_savestateThread w
        then emit (detach SavestateThreadId) (set_m_savestateThread false w)
        else w in
      let w :=
        if m_seekThread w
        then emit (detach SeekThreadId) (set_m_seekThread false w)
        else w in
      let w := notify condVar w in
      set_futureDiffs ∅ w
    else w in
  let w := set_shouldJumpBack false w in
  let w := set_shouldJumpForward false w in
  let w := set_isHardFFW false w in
  let w := set_isSoftFFW false w in
  let w := set_targetFrameNum INT_MAX w in
  set_inSlippiPlayback false w.

(** [processInitialState(iState)]. *)
Definition processInitialState (w : World) : World :=
  let w := emit State_SaveToBuffer (set_iState (emuState w) w) in
  set_bHideCursor false w.

(** One pass of the loop of [SavestateThread], from the loop test to the
    sleep, the wait or the exit. *)
Definition SavestateThread_iteration (w : World) : World :=
  if negb (shouldRunThreads w) then w
  else if negb (Z.rem (wrap32 (currentPlaybackFrame w - PLAYBACK_FIRST_SAVE))
                      FRAME_INTERVAL =? 0)
  then emit (cv_wait condVar) w
  else
    let fixedFrameNumber := currentPlaybackFrame w in
    if fixedFrameNumber =? INT_MAX then w
    else
      let isStartFrame := fixedFrameNumber =? PLAYBACK_FIRST_SAVE in
      let hasStateBeenProcessed :=
        bool_decide (is_Some (futureDiffs w !! fixedFrameNumber)) in
      let w :=
        if negb (inSlippiPlayback w) && isStartFrame then
          set_inSlippiPlayback true (processInitialState w)
        else if negb hasStateBeenProcessed && negb isStartFrame then
          let w := emit State_SaveToBuffer (set_cState (emuState w) w) in
          let w :=
            set_futureDiffs
              (<[fixedFrameNumber := vcdiff_encode (iState w) (cState w)]>
                 (futureDiffs w)) w in
          set_asyncPending (S (asyncPending w)) w
        else w in
      sleep w.

(** The same pass from the statement after the wait loop on: the thread has
    left the wait, tests [shouldRunThreads] once more and reads
    [currentPlaybackFrame] a second time, into [fixedFrameNumber].  The wait
    loop releases no lock that the host takes before it stores a frame
    number, so the frame read here need not be the frame the loop tested. *)
Definition SavestateThread_afterWait (w : World) : World :=
  if negb (shouldRunThreads w) then w
  else
    let fixedFrameNumber := currentPlaybackFrame w in
    if fixedFrameNumber =? INT_MAX then w
    else
      let isStartFrame := fixedFrameNumber =? PLAYBACK_FIRST_SAVE in
      let hasStateBeenProcessed :=
        bool_decide (is_Some (futureDiffs w !! fixedFrameNumber)) in
      let w :=
        if negb (inSlippiPlayback w) && isStartFrame then
          set_inSlippiPlayback true (processInitialState w)
        else if negb hasStateBeenProcessed && negb isStartFrame then
          let w := emit State_SaveToBuffer (set_cState (emuState w) w) in
          let w :=
            set_futureDiffs
              (<[fixedFrameNumber := vcdiff_encode (iState w) (cState w)]>
                 (futureDiffs w)) w in
          set_asyncPending (S (asyncPending w)) w
        else w in
      sleep w.

(** [clearWatchSettingsStartEnd()]. *)
Definition clearWatchSettingsStartEnd (w : World) : World :=
  let startFrame := current_startFrame w in
  let endFrame := current_endFrame w in
  if negb (startFrame =? GAME_FIRST_FRAME) || negb (endFrame =? INT_MAX) then
    let w :=
      if targetFrameNum w <? startFrame
      then set_current_startFrame (targetFrameNum w) w else w in
    if targetFrameNum w >? endFrame
    then set_current_endFrame INT_MAX w else w
  else w.

(** *** [SeekThread], piece by piece *)

Definition shouldSeek (w : World) : bool :=
  inSlippiPlayback w
  && (shouldJumpBack w || shouldJumpForward w
      || negb (targetFrameNum w =? INT_MAX)).

Definition jumpInterval : Z := 300.

(** The two jump assignments.  [jumpInterval] is a [u32], so the sum is
    taken modulo [2^32] and converted back to [s32]. *)
Definition seek_jumpTarget (w : World) : World :=
  let w :=
    if shouldJumpForward w
    then set_targetFrameNum (wrap32 (currentPlaybackFrame w + jumpInterval)) w
    else w in
  if shouldJumpBack w
  then set_targetFrameNum (wrap32 (currentPlaybackFrame w - jumpInterval)) w
  else w.

(** Seeking before the start or past the end of the game. *)
Definition seek_clampTarget (w : World) : World :=
  let w :=
    if targetFrameNum w <? PLAYBACK_FIRST_SAVE
    then set_targetFrameNum PLAYBACK_FIRST_SAVE w else w in
  if targetFrameNum w >? latestFrame w
  then set_targetFrameNum (latestFrame w) w else w.

Definition closestStateFrame (w : World) : option Z :=
  nearestIntervalFrame (targetFrameNum w) PLAYBACK_FIRST_SAVE FRAME_INTERVAL.

Definition isLoadingStateOptimal (closest : Z) (w : World) : bool :=
  (targetFrameNum w <? currentPlaybackFrame w)
  || (closest >? currentPlaybackFrame w).

(** The state-loading block. *)
Definition seek_loadState (closest : Z) (w : World) : World :=
  if isLoadingStateOptimal closest w then
    if closest <=? PLAYBACK_FIRST_SAVE then LoadFromBuffer (iState w) w
    else
      match futureDiffs w !! closest with
      | Some diff => LoadFromBuffer (vcdiff_decode (iState w) diff) w
      | None => w
      end
  else w.

(** The test that guards the fast-forward block. *)
Definition seek_needsFfw (closest : Z) (w : World) : bool :=
  negb (targetFrameNum w =? closest)
  && negb (targetFrameNum w =? latestFrame w).

(** The fast-forward block up to and including the wait. *)
Definition seek_ffwBegin (paused : bool) (w : World) : World :=
  let w := set_isHardFFW true w in
  let w := set_m_OCEnable true w in
  let w := set_m_OCFactor 4 w in
  let w := SetState CORE_RUN w in
  let w := emit (cv_wait cv_waitingForTargetFrame) w in
  set_seekPc (SeekInFfwWait paused) w.

(** The fast-forward block after the wait. *)
Definition seek_ffwEnd (w : World) : World :=
  let w := SetState CORE_PAUSE w in
  let w := set_m_OCFactor 1 w in
  let w := set_m_OCEnable false w in
  set_isHardFFW false w.

(** The end of a serviced seek. *)
Definition seek_finish (paused : bool) (w : World) : World :=
  let w := if negb paused then SetState CORE_RUN w else w in
  let w := set_shouldJumpBack false w in
  let w := set_shouldJumpForward false w in
  set_targetFrameNum INT_MAX w.

(** A serviced seek from [getSettings()] to the end of the clamping: the
    local [paused] and the world with the target frame resolved. *)
Definition seek_resolve (w : World) : bool * World :=
  let w :=
    if String.eqb (replayComm_mode w) "queue"
    then clearWatchSettingsStartEnd w else w in
  let paused := EState_eqb (coreState w) CORE_PAUSE in
  let w := SetState CORE_PAUSE w in
  (paused, seek_clampTarget (seek_jumpTarget w)).

(** A serviced seek up to the fast-forward test.  The result is the local
    [paused], the local [closestStateFrame] and the world just before the
    test; [None] is the failed assertion of [emod]. *)
Definition seek_begin (w : World) : option (bool * Z * World) :=
  let '(paused, w) := seek_resolve w in
  closest ← closestStateFrame w;
  Some (paused, closest, seek_loadState closest w).

(** The seek thread runs from where it stands until it sleeps, blocks or
    exits. *)
Definition SeekThread_turn (w : World) : option World :=
  match seekPc w with
  | SeekAtLoop =>
      if negb (shouldRunThreads w) then Some (set_seekPc SeekExited w)
      else if shouldSeek w then
        '(paused, closest, w) ← seek_begin w;
        if seek_needsFfw closest w then Some (seek_ffwBegin paused w)
        else Some (sleep (seek_finish paused w))
      else Some (sleep w)
  | SeekWoken paused =>
      Some (set_seekPc SeekAtLoop (sleep (seek_finish paused (seek_ffwEnd w))))
  | SeekNotStarted | SeekInFfwWait _ | SeekExited => Some w
  end.

(** One serviced seek from start to end: if the thread blocks in the
    fast-forward wait, [others] is everything the host and the other threads
    do to the world until the thread is woken. *)
Definition SeekThread_service (others : World -> World) (w : World)
  : option World :=
  w1 ← SeekThread_turn w;
  match seekPc w1 with
  | SeekInFfwWait paused =>
      SeekThread_turn (set_seekPc (SeekWoken paused) (others w1))
  | _ => Some w1
  end.

(** *** Interleavings *)

(** What can happen next: the host stores a frame number in
    [currentPlaybackFrame], [latestFrame] or [targetFrameNum] (all three are
    public members), the host calls the frame hook, the savestate
    thread makes one pass, a launched [processDiff] begins, a running one
    ends, the seek thread takes a turn, or [resetPlayback] is called.

    [SavestateTurn] is a pass of the savestate thread during which nothing
    else happens.  A pass during which the host or another thread acts
    between the test of the wait loop and the second read of
    [currentPlaybackFrame] is the two actions [SavestateLeavesWait] and
    [SavestateResumes] with the other actions in between. *)
Inductive Action :=
| HostWritesFrame (frame : Z)
| HostWritesLatest (frame : Z)
| HostWritesTarget (frame : Z)
| HostHook (frameIndex : Z)
| SavestateTurn
| DiffEnter
| DiffExit
| SeekTurn
| HostResets
| SavestateLeavesWait
| SavestateResumes.

(** The condition of the wait loop of [SavestateThread]: the thread stays
    in the loop while this holds. *)
Definition savestateWaits (w : World) : bool :=
  shouldRunThreads w
  && negb (Z.rem (wrap32 (currentPlaybackFrame w - PLAYBACK_FIRST_SAVE))
                 FRAME_INTERVAL =? 0).

(** [None]: the action cannot happen in this world.  The world does not
    record that the savestate thread has left its wait: [SavestateResumes]
    is possible in every world, so the runs of [exec] are the runs of the
    program and more, and what holds along every run of [exec] holds along
    every run of the program. *)
Definition step (a : Action) (w : World) : option World :=
  match a with
  | HostWritesFrame frame => Some (set_currentPlaybackFrame frame w)
  | HostWritesLatest frame => Some (set_latestFrame frame w)
  | HostWritesTarget frame => Some (set_targetFrameNum frame w)
  | HostHook frameIndex => prepareSlippiPlayback frameIndex w
  | SavestateTurn => Some (SavestateThread_iteration w)
  | DiffEnter =>
      match asyncPending w with
      | O => None
      | S n => Some (processDiff_enter (set_asyncPending n w))
      end
  | DiffExit =>
      if 0 <? numDiffsProcessing w then Some (processDiff_exit w) else None
  | SeekTurn => SeekThread_turn w
  | HostResets => Some (resetPlayback w)
  | SavestateLeavesWait => if savestateWaits w then None else Some w
  | SavestateResumes => Some (SavestateThread_afterWait w)
  end.

Fixpoint exec (acts : list Action) (w : World) : option World :=
  match acts with
  | [] => Some w
  | a :: rest => w' ← step a w; exec rest w'
  end.

(** The world right after construction of the status object. *)
Definition initialWorld : World :=
  {| g_playbackStatus := SlippiPlaybackStatus_new;
     replayComm_mode := EmptyString;
     current_startFrame := GAME_FIRST_FRAME; current_endFrame := INT_MAX;
     coreState := CORE_RUN; emuState := [];
     m_OCEnable := false; m_OCFactor := 1; bHideCursor := false;
     numDiffsProcessing := 0; asyncPending := 0%nat;
     seekPc := SeekNotStarted; trace := [] |}.

(** *** Interval frames *)

(** A frame on which the savestate thread stores a diff: it passes the
    interval test at the head of the thread's loop and is not the start
    frame. *)
Definition isDiffFrame (frame : Z) : Prop :=
  frame <> PLAYBACK_FIRST_SAVE
  /\ Z.rem (wrap32 (frame - PLAYBACK_FIRST_SAVE)) FRAME_INTERVAL = 0.

(** No diff is stored under the start frame or under [INT_MAX]. *)
Definition diffsOffStart (w : World) : Prop :=
  forall k, is_Some (futureDiffs w !! k) ->
            k <> PLAYBACK_FIRST_SAVE /\ k <> INT_MAX.

End Playback.

(** ** A concrete setting *)

(** Melee's frame counter starts at [-123] and the first savestate is taken
    one frame later, at [-122]: the frame hook tests the interval boundary
    as [(currentPlaybackFrame + 122) % FRAME_INTERVAL == 0] where the
    savestate thread tests
    [(currentPlaybackFrame - PLAYBACK_FIRST_SAVE) % FRAME_INTERVAL].  The
    codec of this setting stores the current state as it is. *)
#[global] Instance melee : Externals := {|
  GAME_FIRST_FRAME := -123;
  PLAYBACK_FIRST_SAVE := -122;
  vcdiff_encode := fun _ cur => cur;
  vcdiff_decode := fun _ diff => diff
|}.

(** Threads started on a fresh status object. *)
Definition started : World := startThreads initialWorld.

(** Playback under way: the reference state [iState] was captured at frame
    [-122], the machine has moved on since, and [5000] frames are known. *)
Definition playing : World :=
  set_latestFrame 5000
    (set_emuState [Byte.x02]
       (set_iState [Byte.x01]
          (set_inSlippiPlayback true
             (set_currentPlaybackFrame (-122) started)))).

(** At frame [200], a seek ahead to frame [1000]: the savestate frame below
    the target, [778], has not been played yet and has no diff. *)
Definition seek_ahead_no_diff : World :=
  set_targetFrameNum 1000 (set_currentPlaybackFrame 200 playing).

(** At frame [200], a seek to frame [-500], before the first savestate. *)
Definition seek_before_start : World :=
  set_targetFrameNum (-500) (set_currentPlaybackFrame 200 playing).

(** At frame [200], a seek to frame [9000], past the last known frame. *)
Definition seek_past_end : World :=
  set_targetFrameNum 9000 (set_currentPlaybackFrame 200 playing).

(** At frame [200], a seek forward to frame [500]. *)
Definition seek_forward : World :=
  set_targetFrameNum 500 (set_currentPlaybackFrame 200 playing).

(** The same seek with the core paused beforehand. *)
Definition seek_forward_paused : World := set_coreState CORE_PAUSE seek_forward.

(** Queue mode, the current replay bounded to frames [1000] to [2000]; at
    frame [1100] a jump back is requested. *)
Definition queue_jump_back : World :=
  set_shouldJumpBack true
    (set_current_startFrame 1000
       (set_current_endFrame 2000
          (set_replayComm_mode "queue"
             (set_currentPlaybackFrame 1100 playing)))).

(** The seek thread after its turn on [seek_forward]. *)
Definition seek_forward_blocked : World :=
  match SeekThread_turn seek_forward with
  | Some w => w
  | None => seek_forward
  end.

(** Threads already told to stop, one diff still stored. *)
Definition stopped_with_diff : World :=
  set_futureDiffs {[ 778 := [Byte.x03] ]} (set_shouldRunThreads false playing).

(** The host plays from the first savestate frame over four further
    interval frames; at each of them the hook is called, the savestate
    thread launches a diff and the diff begins. *)
Definition four_intervals : list Action :=
  [HostWritesFrame (-122); HostHook (-122); SavestateTurn;
   HostWritesFrame 778; HostHook 778; SavestateTurn; DiffEnter;
   HostWritesFrame 1678; HostHook 1678; SavestateTurn; DiffEnter;
   HostWritesFrame 2578; HostHook 2578; SavestateTurn; DiffEnter;
   HostWritesFrame 3478; HostHook 3478; SavestateTurn; DiffEnter].

(** Playback has reached the interval frame [778]; nothing is stored yet. *)
Definition at_interval_778 : World := set_currentPlaybackFrame 778 playing.

(** At frame [1678], with a diff stored for frame [778]. *)
Definition with_diff_778 : World :=
  set_futureDiffs {[ 778 := [Byte.x03] ]} (set_currentPlaybackFrame 1678 playing).

(** At frame [2000], a seek back to frame [1000], with that diff stored. *)
Definition seek_back_with_diff : World :=
  set_targetFrameNum 1000 (set_currentPlaybackFrame 2000 with_diff_778).

(** The savestate thread has made its pass at frame [778]; the machine has
    moved on to frame [2000], and a seek back to frame [1000] is
    requested. *)
Definition seek_back_after_savestate : World :=
  set_targetFrameNum 1000
    (set_currentPlaybackFrame 2000
       (set_emuState [Byte.x04] (SavestateThread_iteration at_interval_778))).

(** At frame [1000], a seek back to frame [50]. *)
Definition seek_back_first_interval : World :=
  set_targetFrameNum 50 (set_currentPlaybackFrame 1000 playing).

(** At frame [100], a jump back. *)
Definition jump_back_at_100 : World :=
  set_shouldJumpBack true (set_currentPlaybackFrame 100 playing).

(** Queue mode, replay bounded to frames [1000] to [2000], an absolute seek
    to frame [800]. *)
Definition queue_seek_800 : World :=
  set_targetFrameNum 800 (set_shouldJumpBack false queue_jump_back).

(** One more interval played, with the hook called after the savestate
    thread's pass. *)
Definition one_interval : list Action :=
  [HostWritesFrame 778; HostHook 778; SavestateTurn; DiffEnter;
   HostHook 779; SeekTurn; DiffExit].

(** The host moves on to frame [779] after the savestate thread has left
    its wait at frame [778] and before the thread reads the frame number
    again. *)
Definition frame_moves_during_pass : list Action :=
  [HostWritesFrame 778; HostHook 778; SavestateLeavesWait;
   HostWritesFrame 779; SavestateResumes].

(** ** Proof tools *)

(** Reduces field reads of updated worlds, and nothing else. *)
Ltac world_simpl :=
  cbv beta iota zeta delta
    [ shouldJumpBack shouldJumpForward
       inSlippiPlayback shouldRunThreads isHardFFW isSoftFFW lastFFWFrame
       currentPlaybackFrame targetFrameNum latestFrame iState cState
       futureDiffs m_savestateThread m_seekThread g_playbackStatus
       replayComm_mode current_startFrame current_endFrame coreState emuState
       m_OCEnable m_OCFactor bHideCursor numDiffsProcessing asyncPending
       seekPc trace with_status set_shouldJumpBack set_shouldJumpForward
       set_inSlippiPlayback set_shouldRunThreads set_isHardFFW set_isSoftFFW
       set_lastFFWFrame set_currentPlaybackFrame set_targetFrameNum
       set_latestFrame set_iState set_cState set_futureDiffs
       set_m_savestateThread set_m_seekThread set_replayComm_mode
       set_current_startFrame set_current_endFrame set_coreState set_emuState
       set_m_OCEnable set_m_OCFactor set_bHideCursor set_numDiffsProcessing
       set_asyncPending set_seekPc set_trace emit SetState LoadFromBuffer
       notify sleep ].

(** Case analysis on a conditional whose test contains no conditional. *)
Ltac case_if :=
  match goal with
  | |- context [if ?b then _ else _] =>
      lazymatch b with
      | context [if _ then _ else _] => fail
      | _ => let E := fresh "E" in destruct b eqn:E
      end
  end.

(** Boolean comparisons in the hypotheses become propositions. *)
Ltac zbool :=
  repeat match goal with
         | E : (_ <? _) = true |- _ => apply Z.ltb_lt in E
         | E : (_ <? _) = false |- _ => apply Z.ltb_ge in E
         | E : (_ <=? _) = true |- _ => apply Z.leb_le in E
         | E : (_ <=? _) = false |- _ => apply Z.leb_gt in E
         | E : (_ >? _) = _ |- _ => rewrite Z.gtb_ltb in E
         | E : (_ >=? _) = _ |- _ => rewrite Z.geb_leb in E
         | E : (_ =? _) = true |- _ => apply Z.eqb_eq in E
         | E : (_ =? _) = false |- _ => apply Z.eqb_neq in E
         end.

(** ** Facts about [wrap32] and [emod] *)

Lemma wrap32_id z : in_s32 z -> wrap32 z = z.
Proof.
  unfold in_s32, wrap32, INT_MIN, INT_MAX. intros H.
  rewrite Z.mod_small by lia. lia.
Qed.

Lemma wrap32_in_s32 z : in_s32 (wrap32 z).
Proof.
  unfold in_s32, wrap32, INT_MIN, INT_MAX.
  pose proof (Z.mod_pos_bound (z + 2147483648) 4294967296 ltac:(lia)). lia.
Qed.

Lemma wrap32_congr x y :
  (x - y) mod 4294967296 = 0 -> wrap32 x = wrap32 y.
Proof.
  intros H. unfold wrap32. f_equal.
  apply Z.mod_divide in H; [|lia]. destruct H as [k Hk].
  replace (x + 2147483648) with (y + 2147483648 + k * 4294967296) by lia.
  apply Z.mod_add. lia.
Qed.

Lemma wrap32_sub_l x y : wrap32 (wrap32 x - y) = wrap32 (x - y).
Proof.
  apply wrap32_congr. unfold wrap32.
  pose proof (Z.div_mod (x + 2147483648) 4294967296 ltac:(lia)) as D.
  replace ((x + 2147483648) mod 4294967296 - 2147483648 - y - (x - y))
    with ((- ((x + 2147483648) / 4294967296)) * 4294967296) by lia.
  apply Z.mod_mul. lia.
Qed.

(** The part of [emod] after its two guards. *)
Lemma emod_abs_value a b :
  in_s32 b -> b <> 0 -> b <> INT_MIN ->
  (let r := Z.rem a b in
   if r >=? 0 then Some r
   else if b =? INT_MIN then None
   else Some (wrap32 (r + Z.abs b)))
  = Some (a mod Z.abs b).
Proof.
  intros Hb Hnz Hmin. cbv zeta.
  pose proof (Z.rem_bound_abs a b Hnz) as Habs.
  pose proof (Z.quot_rem a b Hnz) as Q.
  set (r := Z.rem a b) in *. set (q := Z.quot a b) in *.
  assert (exists q', a = Z.abs b * q' + r) as [q' Hq'].
  { destruct (Z.lt_ge_cases b 0).
    - exists (- q). rewrite Z.abs_neq by lia. lia.
    - exists q. rewrite Z.abs_eq by lia. lia. }
  destruct (Z.geb_spec r 0) as [Hr|Hr].
  - f_equal. apply (Z.mod_unique_pos a (Z.abs b) q'); lia.
  - destruct (Z.eqb_spec b INT_MIN) as [E|_]; [contradiction|]. f_equal.
    assert (wrap32 (r + Z.abs b) = r + Z.abs b) as ->.
    { apply wrap32_id. unfold in_s32, INT_MIN, INT_MAX in *. lia. }
    apply (Z.mod_unique_pos a (Z.abs b) (q' - 1)); lia.
Qed.

(** Where the remainder and the absolute value are defined, the result of
    [emod] is the mathematical modulo by the absolute value of the
    modulus. *)
Lemma emod_abs a b :
  in_s32 b -> b <> 0 -> b <> INT_MIN -> ~ (a = INT_MIN /\ b = -1) ->
  emod a b = Some (a mod Z.abs b).
Proof.
  intros Hb Hnz Hmin Htrap. unfold emod.
  destruct (Z.eqb_spec b 0) as [E|_]; [contradiction|].
  destruct (Z.eqb_spec a INT_MIN) as [Ea|Ea];
    destruct (Z.eqb_spec b (-1)) as [Eb|Eb];
    cbv beta iota delta [andb]; try (exfalso; apply Htrap; now split).
  all: apply emod_abs_value; assumption.
Qed.

Lemma emod_pos a b :
  in_s32 b -> 0 < b -> emod a b = Some (a mod b).
Proof.
  intros Hb Hpos.
  rewrite emod_abs by (unfold INT_MIN; auto; lia).
  now rewrite Z.abs_eq by lia.
Qed.

(** ** The frame arithmetic *)

Example emod_minus5_900 : emod (-5) 900 = Some 895.
Proof. reflexivity. Qed.

Example emod_zero_modulus : emod 7 0 = None.
Proof. reflexivity. Qed.

(** The two calls that end in a division trap or an undefined absolute
    value return nothing. *)
Example emod_no_value :
  emod INT_MIN (-1) = None /\ emod (-1) INT_MIN = None.
Proof. split; reflexivity. Qed.

(** C4, as stated, fails for a negative modulus: [emod(5, -3)] is [2],
    which is not in the (empty) interval from [0] to [-3]. *)
Lemma emod_negative_modulus_counterexample :
  emod 5 (-3) = Some 2 /\ ~ (0 <= 2 < -3).
Proof. split; [reflexivity | lia]. Qed.

(** C4, amended: for all [s32] values [a] and [b] where [b] is neither [0]
    nor [INT_MIN] and the call is not [emod(INT_MIN, -1)], [emod a b] is the
    mathematical modulo of [a] by [|b|], a value in [[0, |b|)]; for a
    positive [b] this is a value in [[0, b)], also when [a] is negative.
    The excluded calls are those where the assertion fails, where
    [INT_MIN % -1] traps and where [std::abs(INT_MIN)] is undefined. *)
Theorem emod_range (a b : Z) :
  in_s32 a -> in_s32 b ->
  b <> 0 -> b <> INT_MIN -> ~ (a = INT_MIN /\ b = -1) ->
  exists r, emod a b = Some r
            /\ r = a mod Z.abs b
            /\ 0 <= r < Z.abs b
            /\ (0 < b -> 0 <= r < b).
Proof.
  intros _ Hb Hnz Hmin Htrap. exists (a mod Z.abs b).
  pose proof (Z.mod_pos_bound a (Z.abs b) ltac:(lia)) as B.
  split; [now apply emod_abs|]. split; [reflexivity|]. split; [exact B|].
  intros Hpos. lia.
Qed.

Lemma emod_range_witness :
  in_s32 (-5) /\ in_s32 900
  /\ 900 <> 0 /\ 900 <> INT_MIN /\ ~ (-5 = INT_MIN /\ 900 = -1)
  /\ exists r, emod (-5) 900 = Some r
               /\ r = (-5) mod Z.abs 900
               /\ 0 <= r < Z.abs 900
               /\ (0 < 900 -> 0 <= r < 900).
Proof.
  assert (in_s32 (-5)) as Ha by (unfold in_s32, INT_MIN, INT_MAX; lia).
  assert (in_s32 900) as Hi by (unfold in_s32, INT_MIN, INT_MAX; lia).
  assert (900 <> INT_MIN) as Hmin by (unfold INT_MIN; lia).
  assert (~ (-5 = INT_MIN /\ 900 = -1)) as Htrap by lia.
  split; [exact Ha|]. split; [exact Hi|]. split; [lia|].
  split; [exact Hmin|]. split; [exact Htrap|].
  apply (emod_range (-5) 900 Ha Hi ltac:(lia) Hmin Htrap).
Defined.

Lemma in_s32_FRAME_INTERVAL : in_s32 FRAME_INTERVAL.
Proof. unfold in_s32, INT_MIN, INT_MAX, FRAME_INTERVAL. lia. Qed.

(** With a positive interval the rounding is defined, and it subtracts the
    mathematical modulo of the wrapped frame delta. *)
Lemma nearestIntervalFrame_pos frame firstFrame interval :
  in_s32 interval -> 0 < interval ->
  nearestIntervalFrame frame firstFrame interval
  = Some (wrap32 (frame - wrap32 (frame - firstFrame) mod interval)).
Proof.
  intros Hi Hpos. unfold nearestIntervalFrame.
  now rewrite emod_pos by assumption.
Qed.

(** Rounding twice is rounding once, as soon as the wrapped frame delta lies
    at least one interval above [INT_MIN]. *)
Lemma nearestIntervalFrame_twice frame firstFrame interval :
  in_s32 interval -> 0 < interval ->
  INT_MIN + interval <= wrap32 (frame - firstFrame) ->
  exists k,
    nearestIntervalFrame frame firstFrame interval = Some k
    /\ nearestIntervalFrame k firstFrame interval = Some k.
Proof.
  intros Hi Hpos Hlow.
  set (d := wrap32 (frame - firstFrame)) in *.
  set (m := d mod interval).
  exists (wrap32 (frame - m)).
  split; [now apply nearestIntervalFrame_pos|].
  rewrite nearestIntervalFrame_pos by assumption.
  pose proof (Z.mod_pos_bound d interval Hpos) as Hm. fold m in Hm.
  pose proof (wrap32_in_s32 (frame - firstFrame)) as Hd. fold d in Hd.
  assert (wrap32 (wrap32 (frame - m) - firstFrame) = d - m) as ->.
  { rewrite wrap32_sub_l.
    replace (frame - m - firstFrame) with (frame - firstFrame - m) by lia.
    rewrite <- wrap32_sub_l. fold d.
    apply wrap32_id. unfold in_s32, INT_MIN, INT_MAX in *. lia. }
  assert ((d - m) mod interval = 0) as ->.
  { unfold m. rewrite Zminus_mod_idemp_r, Z.sub_diag. apply Z.mod_0_l. lia. }
  rewrite Z.sub_0_r. f_equal. apply wrap32_id, wrap32_in_s32.
Qed.

(** C9, as stated, fails where the rounded frame leaves the 32-bit range:
    with first frame [0] and interval [900], frame [-2147483643] has the
    modulo [57], the subtraction wraps around to [2147483596], and that
    frame rounds to [2147482800]. *)
Lemma nearestIntervalFrame_wraparound_counterexample :
  in_s32 (-2147483643) /\ in_s32 0 /\ 0 < 900
  /\ nearestIntervalFrame (-2147483643) 0 900 = Some 2147483596
  /\ nearestIntervalFrame 2147483596 0 900 = Some 2147482800
  /\ 2147482800 <> 2147483596.
Proof.
  unfold in_s32, INT_MIN, INT_MAX.
  split; [lia|]. split; [lia|]. split; [lia|].
  split; [vm_compute; reflexivity|]. split; [vm_compute; reflexivity|]. lia.
Qed.

(** C9, amended: [nearestIntervalFrame] is idempotent for every positive
    [s32] interval and all frames whose delta [frame - firstFrame] is an
    [s32] that leaves room for one interval above [INT_MIN]: rounding the
    rounded frame gives the rounded frame again.  The code computes the
    delta and the rounded frame in 32 bits. *)
Theorem nearestIntervalFrame_idempotent (frame firstFrame interval : Z) :
  in_s32 interval -> 0 < interval ->
  INT_MIN + interval <= frame - firstFrame <= INT_MAX ->
  exists k,
    nearestIntervalFrame frame firstFrame interval = Some k
    /\ nearestIntervalFrame k firstFrame interval = Some k.
Proof.
  intros Hi Hpos Hd. apply nearestIntervalFrame_twice; try assumption.
  rewrite wrap32_id; [lia|].
  unfold in_s32, INT_MIN, INT_MAX in *. lia.
Qed.

Lemma nearestIntervalFrame_idempotent_witness :
  in_s32 900 /\ 0 < 900 /\ INT_MIN + 900 <= 500 - -122 <= INT_MAX
  /\ exists k,
       nearestIntervalFrame 500 (-122) 900 = Some k
       /\ nearestIntervalFrame k (-122) 900 = Some k.
Proof.
  assert (in_s32 900) as Hi by (unfold in_s32, INT_MIN, INT_MAX; lia).
  assert (INT_MIN + 900 <= 500 - -122 <= INT_MAX) as Hd
    by (unfold INT_MIN, INT_MAX; lia).
  split; [exact Hi|]. split; [lia|]. split; [exact Hd|].
  apply (nearestIntervalFrame_idempotent 500 (-122) 900 Hi ltac:(lia) Hd).
Defined.

(** Scenarios B and C of the specification: with first frame [0] and
    interval [900], frames [50] and [500] round down to [0]. *)
Example nearestIntervalFrame_scenarios :
  nearestIntervalFrame 50 0 900 = Some 0
  /\ nearestIntervalFrame 500 0 900 = Some 0
  /\ nearestIntervalFrame 1000 0 900 = Some 900.
Proof. repeat split. Qed.


Section PlaybackProperties.
Context `{Externals}.

(** C2, amended: the frame hook lets the host through exactly when the
    threads are not running or [numDiffsProcessing] is at most [3], so the
    host is held back only once more than three diffs are in flight; and
    [processDiff] raises the counter when it begins, whatever the counter
    is.  Nothing bounds the counter before a diff starts. *)
Theorem backpressure_gate (frameIndex : Z) (w : World) :
  (is_Some (prepareSlippiPlayback frameIndex w)
   <-> shouldRunThreads w = false \/ numDiffsProcessing w <= 3)
  /\ numDiffsProcessing (processDiff_enter w)
     = wrap32 (numDiffsProcessing w + 1).
Proof.
  split.
  - unfold prepareSlippiPlayback, tooManyDiffs.
    destruct (shouldRunThreads w) eqn:Hrun; cbv [andb].
    + destruct (numDiffsProcessing w >? 3) eqn:E; zbool.
      * split; [intros [x Hx]; discriminate | intros [?|?]; [discriminate | lia]].
      * split; [intros _; right; lia|]. intros _.
        repeat case_if; eauto.
    + split; [intros _; now left|]. intros _. repeat case_if; eauto.
  - destruct w as [[]]. reflexivity.
Qed.

Lemma clearWatchSettingsStartEnd_status w :
  g_playbackStatus (clearWatchSettingsStartEnd w) = g_playbackStatus w.
Proof. unfold clearWatchSettingsStartEnd. repeat case_if; reflexivity. Qed.

Lemma SetState_status s w : g_playbackStatus (SetState s w) = g_playbackStatus w.
Proof. reflexivity. Qed.

Lemma LoadFromBuffer_status b w :
  g_playbackStatus (LoadFromBuffer b w) = g_playbackStatus w.
Proof. reflexivity. Qed.

Lemma seek_loadState_status c w :
  g_playbackStatus (seek_loadState c w) = g_playbackStatus w.
Proof.
  unfold seek_loadState. repeat case_if; try reflexivity.
  destruct (futureDiffs w !! c); reflexivity.
Qed.

Lemma seek_jumpTarget_latestFrame w :
  latestFrame (seek_jumpTarget w) = latestFrame w.
Proof. unfold seek_jumpTarget. repeat case_if; reflexivity. Qed.

Lemma seek_clampTarget_bounds w :
  latestFrame (seek_clampTarget w) = latestFrame w
  /\ (PLAYBACK_FIRST_SAVE <= latestFrame w ->
      PLAYBACK_FIRST_SAVE <= targetFrameNum (seek_clampTarget w) <= latestFrame w).
Proof.
  unfold seek_clampTarget. destruct w as [[]].
  world_simpl. repeat (case_if; world_simpl); zbool; (split; [reflexivity | lia]).
Qed.


Lemma seek_jumpTarget_status w1 w2 :
  g_playbackStatus w1 = g_playbackStatus w2 ->
  g_playbackStatus (seek_jumpTarget w1) = g_playbackStatus (seek_jumpTarget w2).
Proof.
  destruct w1 as [s1], w2 as [s2]. cbv [g_playbackStatus]. intros ->.
  unfold seek_jumpTarget. world_simpl. destruct s2.
  repeat (case_if; world_simpl); congruence.
Qed.

Lemma seek_clampTarget_status w1 w2 :
  g_playbackStatus w1 = g_playbackStatus w2 ->
  g_playbackStatus (seek_clampTarget w1) = g_playbackStatus (seek_clampTarget w2).
Proof.
  destruct w1 as [s1], w2 as [s2]. cbv [g_playbackStatus]. intros ->.
  unfold seek_clampTarget. world_simpl. destruct s2.
  repeat (case_if; world_simpl); congruence.
Qed.

(** The jump assignments and the clamping write [targetFrameNum] and
    nothing else. *)
Lemma seek_jumpTarget_form w :
  seek_jumpTarget w = set_targetFrameNum (targetFrameNum (seek_jumpTarget w)) w.
Proof.
  destruct w as [[jb jf]]. unfold seek_jumpTarget. world_simpl.
  destruct jf; world_simpl; destruct jb; reflexivity.
Qed.

Lemma seek_clampTarget_form w :
  seek_clampTarget w = set_targetFrameNum (targetFrameNum (seek_clampTarget w)) w.
Proof.
  destruct w as [[]]. unfold seek_clampTarget. world_simpl.
  case_if; world_simpl; case_if; reflexivity.
Qed.

(** What [seek_resolve] does to the world: the status object is the one the
    two jump assignments and the clamping produce, the core is paused, and
    the pause is the only call made. *)
Lemma seek_resolve_spec w :
  exists w2,
    seek_resolve w = (EState_eqb (coreState w) CORE_PAUSE, w2)
    /\ g_playbackStatus w2 = g_playbackStatus (seek_clampTarget (seek_jumpTarget w))
    /\ coreState w2 = CORE_PAUSE
    /\ trace w2 = Core_SetState CORE_PAUSE :: trace w
    /\ emuState w2 = emuState w
    /\ seekPc w2 = seekPc w.
Proof.
  unfold seek_resolve.
  set (w0 := if String.eqb (replayComm_mode w) "queue"
             then clearWatchSettingsStartEnd w else w).
  assert (g_playbackStatus w0 = g_playbackStatus w
          /\ coreState w0 = coreState w /\ trace w0 = trace w
          /\ emuState w0 = emuState w /\ seekPc w0 = seekPc w) as (Hs & Hc & Ht & He & Hp).
  { unfold w0, clearWatchSettingsStartEnd. repeat case_if; repeat split. }
  eexists. split; [rewrite Hc; reflexivity|].
  split.
  { apply seek_clampTarget_status, seek_jumpTarget_status. exact Hs. }
  rewrite <- Ht, <- He, <- Hp.
  rewrite (seek_clampTarget_form (seek_jumpTarget (SetState CORE_PAUSE w0))).
  rewrite (seek_jumpTarget_form (SetState CORE_PAUSE w0)).
  repeat split.
Qed.

Lemma closestStateFrame_total w :
  closestStateFrame w
  = Some (wrap32 (targetFrameNum w
                  - wrap32 (targetFrameNum w - PLAYBACK_FIRST_SAVE) mod FRAME_INTERVAL)).
Proof.
  unfold closestStateFrame. apply nearestIntervalFrame_pos.
  - apply in_s32_FRAME_INTERVAL.
  - reflexivity.
Qed.

(** The rounding of a clamped target is a fixed point of the rounding. *)
Lemma closestStateFrame_idempotent (w : World) closest :
  PLAYBACK_FIRST_SAVE <= targetFrameNum w ->
  targetFrameNum w - PLAYBACK_FIRST_SAVE <= INT_MAX ->
  closestStateFrame w = Some closest ->
  closestStateFrame (set_targetFrameNum closest w) = Some closest.
Proof.
  intros Hlo Hhi Hc. unfold closestStateFrame in *.
  change (targetFrameNum (set_targetFrameNum closest w)) with closest.
  destruct (nearestIntervalFrame_twice (targetFrameNum w) PLAYBACK_FIRST_SAVE
              FRAME_INTERVAL in_s32_FRAME_INTERVAL eq_refl) as (k & Hk & Hkk).
  - rewrite wrap32_id; unfold in_s32, INT_MIN, INT_MAX, FRAME_INTERVAL in *; lia.
  - rewrite Hk in Hc. injection Hc as <-. exact Hkk.
Qed.

(** [seek_begin] never fails, and yields the resolved world with at most
    one state loaded into the machine. *)
Lemma seek_begin_spec w :
  exists w2 closest,
    seek_resolve w = (EState_eqb (coreState w) CORE_PAUSE, w2)
    /\ closestStateFrame w2 = Some closest
    /\ seek_begin w
       = Some (EState_eqb (coreState w) CORE_PAUSE, closest, seek_loadState closest w2).
Proof.
  destruct (seek_resolve_spec w) as (w2 & R & _).
  exists w2. eexists. split; [exact R|].
  split; [apply closestStateFrame_total|].
  unfold seek_begin. rewrite R, closestStateFrame_total. reflexivity.
Qed.

(** C5, amended: given [PLAYBACK_FIRST_SAVE <= latestFrame], every serviced
    seek reaches the fast-forward test with
    [PLAYBACK_FIRST_SAVE <= targetFrameNum <= latestFrame]; a target outside
    that range is clamped and the servicing does not fail.  (The target can
    be negative: the lower bound is the first savestate frame.) *)
Theorem seek_target_clamped (w : World) :
  PLAYBACK_FIRST_SAVE <= latestFrame w ->
  exists paused closest w',
    seek_begin w = Some (paused, closest, w')
    /\ latestFrame w' = latestFrame w
    /\ PLAYBACK_FIRST_SAVE <= targetFrameNum w' <= latestFrame w'.
Proof.
  intros Hle.
  destruct (seek_begin_spec w) as (w2 & closest & R & _ & B).
  destruct (seek_resolve_spec w) as (w2' & R' & Hs & _).
  rewrite R in R'. injection R' as <-.
  eexists _, _, _. split; [exact B|].
  rewrite seek_loadState_status, Hs.
  destruct (seek_clampTarget_bounds (seek_jumpTarget w)) as [L Bd].
  rewrite seek_jumpTarget_latestFrame in *.
  split; [exact L|]. rewrite L. apply Bd. exact Hle.
Qed.

(** C1, amended: when loading a state is called for, [closestStateFrame]
    lies beyond the first savestate frame and [futureDiffs] has no entry for
    it, the seek thread loads no state at all: the machine state is the one
    before the seek and pausing the core is the only call made before the
    fast-forward test. *)
Theorem seek_missing_diff_loads_nothing (w : World) paused closest w' :
  seek_begin w = Some (paused, closest, w') ->
  isLoadingStateOptimal closest w' = true ->
  PLAYBACK_FIRST_SAVE < closest ->
  futureDiffs w' !! closest = None ->
  emuState w' = emuState w
  /\ trace w' = Core_SetState CORE_PAUSE :: trace w.
Proof.
  intros B Hopt Hgt Hnone.
  destruct (seek_begin_spec w) as (w2 & c & R & _ & B').
  destruct (seek_resolve_spec w) as (w2' & R' & _ & _ & Ht & He & _).
  rewrite R in R'. injection R' as <-.
  rewrite B in B'. injection B' as -> -> ->.
  unfold isLoadingStateOptimal in Hopt.
  rewrite seek_loadState_status in Hopt, Hnone.
  unfold seek_loadState, isLoadingStateOptimal. rewrite Hopt, Hnone.
  destruct (Z.leb_spec c PLAYBACK_FIRST_SAVE); [lia|].
  split; assumption.
Qed.


Lemma seek_loadState_env c w :
  coreState (seek_loadState c w) = coreState w
  /\ seekPc (seek_loadState c w) = seekPc w.
Proof.
  unfold seek_loadState. repeat case_if; try (split; reflexivity).
  destruct (futureDiffs w !! c); split; reflexivity.
Qed.

Lemma seek_clampTarget_past_end (w : World) :
  latestFrame w < targetFrameNum w ->
  targetFrameNum (seek_clampTarget w) = latestFrame w.
Proof.
  destruct w as [[]]. unfold seek_clampTarget. world_simpl. intros Hlt.
  case_if; world_simpl; case_if; world_simpl; zbool; lia.
Qed.

(** A turn of the seek thread that services a seek. *)
Lemma SeekThread_turn_serviced w :
  seekPc w = SeekAtLoop -> shouldRunThreads w = true -> shouldSeek w = true ->
  exists paused closest w1,
    seek_begin w = Some (paused, closest, w1)
    /\ paused = EState_eqb (coreState w) CORE_PAUSE
    /\ coreState w1 = CORE_PAUSE
    /\ seekPc w1 = SeekAtLoop
    /\ g_playbackStatus w1 = g_playbackStatus (seek_clampTarget (seek_jumpTarget w))
    /\ SeekThread_turn w
       = Some (if seek_needsFfw closest w1 then seek_ffwBegin paused w1
               else sleep (seek_finish paused w1)).
Proof.
  intros Hpc Hrun Hseek.
  destruct (seek_begin_spec w) as (w2 & closest & R & _ & B).
  destruct (seek_resolve_spec w) as (w2' & R' & Hs & Hc & _ & _ & Hp).
  rewrite R in R'. injection R' as <-.
  destruct (seek_loadState_env closest w2) as [Lc Lp].
  eexists _, closest, _. split; [exact B|]. split; [reflexivity|].
  split; [now rewrite Lc|]. split; [now rewrite Lp, Hp|].
  split; [now rewrite seek_loadState_status|].
  unfold SeekThread_turn. rewrite Hpc, Hrun, Hseek, B.
  cbv [negb mbind option_bind]. now destruct (seek_needsFfw _ _).
Qed.

Lemma seek_finish_env paused w :
  coreState (seek_finish paused w) = (if paused then coreState w else CORE_RUN)
  /\ seekPc (seek_finish paused w) = seekPc w.
Proof. destruct paused; split; reflexivity. Qed.

(** C7: a serviced seek enters the fast-forward wait exactly when the
    resolved target differs from [closestStateFrame] and from [latestFrame];
    and when the requested frame (after the jump assignments) lies beyond
    [latestFrame], the target is clamped to [latestFrame] and the turn ends
    back at the loop, without fast-forward. *)
Theorem seek_ffw_condition (w : World) :
  seekPc w = SeekAtLoop -> shouldRunThreads w = true -> shouldSeek w = true ->
  exists paused closest w1 w2,
    seek_begin w = Some (paused, closest, w1)
    /\ SeekThread_turn w = Some w2
    /\ ((exists p, seekPc w2 = SeekInFfwWait p)
        <-> targetFrameNum w1 <> closest /\ targetFrameNum w1 <> latestFrame w1)
    /\ (latestFrame w < targetFrameNum (seek_jumpTarget w) ->
        targetFrameNum w1 = latestFrame w /\ seekPc w2 = SeekAtLoop).
Proof.
  intros Hpc Hrun Hseek.
  destruct (SeekThread_turn_serviced w Hpc Hrun Hseek)
    as (paused & closest & w1 & B & _ & _ & Hp1 & Hs & T).
  exists paused, closest, w1. eexists. split; [exact B|]. split; [exact T|].
  assert (seekPc (sleep (seek_finish paused w1)) = SeekAtLoop) as Hidle.
  { change (seekPc (seek_finish paused w1) = SeekAtLoop).
    now rewrite (proj2 (seek_finish_env paused w1)). }
  split.
  - unfold seek_needsFfw.
    destruct (Z.eqb_spec (targetFrameNum w1) closest) as [E1|E1];
      destruct (Z.eqb_spec (targetFrameNum w1) (latestFrame w1)) as [E2|E2];
      cbv [negb andb];
      try (rewrite Hidle; split; [intros [p Hp]; discriminate | tauto]).
    split; [tauto | intros _; eexists; reflexivity].
  - intros Hlt.
    assert (targetFrameNum w1 = latestFrame w1 /\ latestFrame w1 = latestFrame w)
      as [Ht Hl].
    { rewrite Hs.
      destruct (seek_clampTarget_bounds (seek_jumpTarget w)) as [L _].
      rewrite L. split; [|apply seek_jumpTarget_latestFrame].
      apply seek_clampTarget_past_end.
      now rewrite seek_jumpTarget_latestFrame. }
    split; [congruence|].
    unfold seek_needsFfw. rewrite Ht, Z.eqb_refl, andb_false_r. exact Hidle.
Qed.

(** C10: a serviced seek leaves the core as it found it: paused if it was
    paused when servicing began, running otherwise, whether or not the seek
    loads a state and whether or not it fast-forwards, and whatever the
    host and the other threads do during the fast-forward wait. *)
Theorem seek_preserves_pause_state (others : World -> World) (w : World) :
  seekPc w = SeekAtLoop -> shouldRunThreads w = true -> shouldSeek w = true ->
  exists w',
    SeekThread_service others w = Some w'
    /\ seekPc w' = SeekAtLoop
    /\ coreState w'
       = (if EState_eqb (coreState w) CORE_PAUSE then CORE_PAUSE else CORE_RUN).
Proof.
  intros Hpc Hrun Hseek.
  destruct (SeekThread_turn_serviced w Hpc Hrun Hseek)
    as (paused & closest & w1 & _ & -> & Hc1 & Hp1 & _ & T).
  unfold SeekThread_service. rewrite T. cbv [mbind option_bind].
  set (paused := EState_eqb (coreState w) CORE_PAUSE).
  destruct (seek_needsFfw closest w1).
  - change (seekPc (seek_ffwBegin paused w1)) with (SeekInFfwWait paused).
    cbv iota. unfold SeekThread_turn.
    change (seekPc (set_seekPc (SeekWoken paused) (others (seek_ffwBegin paused w1))))
      with (SeekWoken paused). cbv iota.
    eexists. split; [reflexivity|]. split; [reflexivity|].
    destruct paused; reflexivity.
  - destruct (seek_finish_env paused w1) as [Fc Fp].
    change (seekPc (sleep (seek_finish paused w1)))
      with (seekPc (seek_finish paused w1)).
    rewrite Fp, Hp1. eexists. split; [reflexivity|]. split; [exact (eq_trans Fp Hp1)|].
    change (coreState (sleep (seek_finish paused w1)))
      with (coreState (seek_finish paused w1)).
    rewrite Fc, Hc1. now destruct paused.
Qed.

Lemma resetPlayback_fields (w : World) :
  shouldRunThreads (resetPlayback w) = false
  /\ inSlippiPlayback (resetPlayback w) = false
  /\ seekPc (resetPlayback w) = seekPc w
  /\ numDiffsProcessing (resetPlayback w) = numDiffsProcessing w.
Proof.
  destruct w as [[jb jf ip run hf sf lf cf tf la ist cst fd st sk]].
  destruct run, st, sk; unfold resetPlayback; world_simpl; repeat split.
Qed.

(** The hook neither blocks nor wakes the seek thread once the threads are
    told to stop and playback is off. *)
Lemma prepareSlippiPlayback_after_stop frameIndex (w : World) :
  shouldRunThreads w = false -> inSlippiPlayback w = false ->
  prepareSlippiPlayback frameIndex w = Some w.
Proof.
  intros Hrun Hin. unfold prepareSlippiPlayback, tooManyDiffs.
  rewrite Hrun. cbv [andb]. rewrite Hin. reflexivity.
Qed.

(** [resetPlayback] notifies [condVar] only: a seek thread blocked in the
    fast-forward wait stays blocked, its next turn does nothing, and the
    hook no longer notifies it. *)
Lemma resetPlayback_leaves_ffw_wait (w : World) (paused : bool) :
  seekPc w = SeekInFfwWait paused ->
  let w' := resetPlayback w in
  shouldRunThreads w' = false
  /\ seekPc w' = SeekInFfwWait paused
  /\ SeekThread_turn w' = Some w'
  /\ forall frameIndex, prepareSlippiPlayback frameIndex w' = Some w'.
Proof.
  intros Hpc w'.
  destruct (resetPlayback_fields w) as (Hrun & Hin & Hp & _). fold w' in Hrun, Hin, Hp.
  split; [exact Hrun|]. split; [now rewrite Hp|].
  split.
  - unfold SeekThread_turn. now rewrite Hp, Hpc.
  - intros f. now apply prepareSlippiPlayback_after_stop.
Qed.

(** In queue mode a jump back with no explicit target leaves the start bound
    where it was: [clearWatchSettingsStartEnd] runs before the jump target
    is computed and sees the idle value [INT_MAX]. *)
Lemma queue_jump_back_keeps_start (w : World) :
  replayComm_mode w = "queue" ->
  shouldJumpBack w = true ->
  targetFrameNum w = INT_MAX ->
  current_startFrame w <= INT_MAX ->
  exists paused closest w',
    seek_begin w = Some (paused, closest, w')
    /\ current_startFrame w' = current_startFrame w
    /\ targetFrameNum w'
       = targetFrameNum
           (seek_clampTarget
              (set_targetFrameNum (wrap32 (currentPlaybackFrame w - jumpInterval)) w)).
Proof.
  intros Hq Hjb Ht Hs.
  destruct (seek_begin_spec w) as (w2 & closest & R & _ & B).
  exists (EState_eqb (coreState w) CORE_PAUSE), closest, (seek_loadState closest w2).
  split; [exact B|].
  assert (current_startFrame (seek_loadState closest w2) = current_startFrame w2
          /\ g_playbackStatus (seek_loadState closest w2) = g_playbackStatus w2)
    as [-> ->].
  { split; [|apply seek_loadState_status].
    unfold seek_loadState. repeat case_if; try reflexivity.
    now destruct (futureDiffs w2 !! closest). }
  unfold seek_resolve in R. rewrite Hq in R. change (String.eqb "queue" "queue") with true in R.
  cbv iota in R. injection R as _ <-.
  set (w0 := clearWatchSettingsStartEnd w).
  assert (g_playbackStatus w0 = g_playbackStatus w /\ current_startFrame w0 = current_startFrame w)
    as [Hs0 Hst0].
  { split; [apply clearWatchSettingsStartEnd_status|].
    unfold w0, clearWatchSettingsStartEnd. rewrite Ht.
    destruct (Z.ltb_spec INT_MAX (current_startFrame w)); [lia|].
    repeat case_if; reflexivity. }
  split.
  - rewrite (seek_clampTarget_form (seek_jumpTarget (SetState CORE_PAUSE w0))).
    rewrite (seek_jumpTarget_form (SetState CORE_PAUSE w0)). exact Hst0.
  - f_equal. apply seek_clampTarget_status.
    transitivity (g_playbackStatus (seek_jumpTarget w)).
    + apply seek_jumpTarget_status. exact Hs0.
    + clear -Hjb. destruct w as [[jb jf]]. cbv [shouldJumpBack g_playbackStatus] in Hjb. subst jb.
      unfold seek_jumpTarget. world_simpl. destruct jf; reflexivity.
Qed.

(** C6, amended: [resetPlayback] always leaves [shouldRunThreads], the two
    jump flags, the two fast-forward flags and [inSlippiPlayback] false and
    [targetFrameNum] at [INT_MAX]; it empties [futureDiffs] when the threads
    were running and leaves it alone otherwise; it does not touch the state
    buffers [iState] and [cState] nor the frame counters; and calling it a
    second time changes nothing. *)
Theorem resetPlayback_effect (w : World) :
  let w' := resetPlayback w in
  shouldRunThreads w' = false
  /\ shouldJumpBack w' = false /\ shouldJumpForward w' = false
  /\ isHardFFW w' = false /\ isSoftFFW w' = false
  /\ inSlippiPlayback w' = false /\ targetFrameNum w' = INT_MAX
  /\ futureDiffs w' = (if shouldRunThreads w then ∅ else futureDiffs w)
  /\ iState w' = iState w /\ cState w' = cState w
  /\ currentPlaybackFrame w' = currentPlaybackFrame w
  /\ latestFrame w' = latestFrame w
  /\ lastFFWFrame w' = lastFFWFrame w
  /\ resetPlayback w' = w'.
Proof.
  destruct w as [[jb jf ip run hf sf lf cf tf la ist cst fd st sk]].
  destruct run, st, sk; unfold resetPlayback; world_simpl; repeat split.
Qed.

End PlaybackProperties.

(** ** Runs in the concrete setting *)

(** Scenario A of the specification, in this setting: at the first
    savestate frame the reference state is captured and playback begins; at
    the next interval frame a diff is stored under that frame. *)
Example first_savestate_then_diff :
  exists w1 w2,
    exec [HostWritesFrame (-122); SavestateTurn]
      (set_emuState [Byte.x01] started) = Some w1
    /\ inSlippiPlayback w1 = true
    /\ iState w1 = [Byte.x01]
    /\ exec [HostWritesFrame 778; SavestateTurn]
         (set_emuState [Byte.x02] w1) = Some w2
    /\ futureDiffs w2 !! 778 = Some [Byte.x02].
Proof.
  eexists _, _. split; [vm_compute; reflexivity|].
  split; [reflexivity|]. split; [reflexivity|].
  split; [vm_compute; reflexivity|]. vm_compute. reflexivity.
Qed.

(** C2, as stated, fails: from a fresh start the host passes the hook at
    every frame, and after the fourth interval frame four diffs are in
    flight. *)
Lemma four_diffs_in_flight :
  exists w,
    exec four_intervals started = Some w
    /\ numDiffsProcessing w = 4
    /\ ~ (numDiffsProcessing w <= 3).
Proof.
  eexists. split; [vm_compute; reflexivity|].
  split; [reflexivity | vm_compute; intros Hle; now apply Hle].
Qed.

(** C1, as stated, fails: seeking from frame [200] to frame [1000] rounds
    to savestate frame [778], which lies ahead of the current frame and for
    which no diff is stored; loading is called for, yet [iState] is not
    loaded: the machine state is untouched and the only call is the
    pause. *)
Lemma missing_diff_restores_nothing :
  exists paused w',
    seek_begin seek_ahead_no_diff = Some (paused, 778, w')
    /\ isLoadingStateOptimal 778 w' = true
    /\ PLAYBACK_FIRST_SAVE < 778
    /\ futureDiffs w' !! 778 = None
    /\ iState w' = [Byte.x01]
    /\ emuState w' = [Byte.x02]
    /\ trace w' = [Core_SetState CORE_PAUSE].
Proof.
  eexists _, _. split; [vm_compute; reflexivity|].
  repeat split.
Qed.

Lemma seek_missing_diff_loads_nothing_witness :
  exists paused w',
    seek_begin seek_ahead_no_diff = Some (paused, 778, w')
    /\ isLoadingStateOptimal 778 w' = true
    /\ PLAYBACK_FIRST_SAVE < 778
    /\ futureDiffs w' !! 778 = None
    /\ emuState w' = emuState seek_ahead_no_diff
    /\ trace w' = Core_SetState CORE_PAUSE :: trace seek_ahead_no_diff.
Proof.
  eexists _, _. split; [vm_compute; reflexivity|].
  split; [reflexivity|]. split; [reflexivity|]. split; [reflexivity|].
  apply (seek_missing_diff_loads_nothing seek_ahead_no_diff false 778);
    [vm_compute; reflexivity | reflexivity | reflexivity | reflexivity].
Defined.

(** C5, as stated, fails: a seek to frame [-500] is clamped to the first
    savestate frame [-122], a negative target. *)
Lemma clamped_target_is_negative :
  exists paused closest w',
    seek_begin seek_before_start = Some (paused, closest, w')
    /\ targetFrameNum w' = -122
    /\ targetFrameNum w' < 0.
Proof.
  eexists _, _, _. split; [vm_compute; reflexivity|].
  split; reflexivity.
Qed.

Lemma seek_target_clamped_witness :
  PLAYBACK_FIRST_SAVE <= latestFrame seek_before_start
  /\ exists paused closest w',
       seek_begin seek_before_start = Some (paused, closest, w')
       /\ latestFrame w' = latestFrame seek_before_start
       /\ PLAYBACK_FIRST_SAVE <= targetFrameNum w' <= latestFrame w'.
Proof.
  assert (PLAYBACK_FIRST_SAVE <= latestFrame seek_before_start) as Hle
    by (vm_compute; discriminate).
  split; [exact Hle|].
  apply (seek_target_clamped seek_before_start Hle).
Defined.

(** C6, as stated, fails: after [resetPlayback] the reference state is still
    in [iState], and a reset of stopped threads leaves a stored diff in
    [futureDiffs]. *)
Lemma reset_keeps_buffers_and_diffs :
  iState (resetPlayback playing) = [Byte.x01]
  /\ iState (resetPlayback playing) <> []
  /\ futureDiffs (resetPlayback stopped_with_diff) !! 778 = Some [Byte.x03].
Proof. split; [reflexivity|]. split; [discriminate | reflexivity]. Qed.

Lemma seek_ffw_condition_witness :
  seekPc seek_past_end = SeekAtLoop
  /\ shouldRunThreads seek_past_end = true
  /\ shouldSeek seek_past_end = true
  /\ exists paused closest w1 w2,
       seek_begin seek_past_end = Some (paused, closest, w1)
       /\ SeekThread_turn seek_past_end = Some w2
       /\ ((exists p, seekPc w2 = SeekInFfwWait p)
           <-> targetFrameNum w1 <> closest
               /\ targetFrameNum w1 <> latestFrame w1)
       /\ (latestFrame seek_past_end < targetFrameNum (seek_jumpTarget seek_past_end) ->
           targetFrameNum w1 = latestFrame seek_past_end
           /\ seekPc w2 = SeekAtLoop).
Proof.
  split; [reflexivity|]. split; [reflexivity|]. split; [reflexivity|].
  apply (seek_ffw_condition seek_past_end); reflexivity.
Defined.

Lemma seek_preserves_pause_state_witness :
  seekPc seek_forward_paused = SeekAtLoop
  /\ shouldRunThreads seek_forward_paused = true
  /\ shouldSeek seek_forward_paused = true
  /\ exists w',
       SeekThread_service (set_currentPlaybackFrame 500) seek_forward_paused
       = Some w'
       /\ seekPc w' = SeekAtLoop
       /\ coreState w'
          = (if EState_eqb (coreState seek_forward_paused) CORE_PAUSE
             then CORE_PAUSE else CORE_RUN).
Proof.
  split; [reflexivity|]. split; [reflexivity|]. split; [reflexivity|].
  apply (seek_preserves_pause_state (set_currentPlaybackFrame 500)
           seek_forward_paused); reflexivity.
Defined.

(** Scenario C of the specification, in this setting: from frame [200] a
    seek to frame [500] rounds down to the first savestate frame, loads
    nothing (the machine is already past that frame) and fast-forwards. *)
Example seek_forward_blocks :
  SeekThread_turn seek_forward = Some seek_forward_blocked
  /\ seekPc seek_forward_blocked = SeekInFfwWait false
  /\ coreState seek_forward_blocked = CORE_RUN
  /\ isHardFFW seek_forward_blocked = true.
Proof.
  split; [vm_compute; reflexivity|]. split; [vm_compute; reflexivity|].
  split; vm_compute; reflexivity.
Qed.

(** C3, the failing run: the seek thread is blocked in the fast-forward
    wait when [resetPlayback] is called.  The reset notifies [condVar] and
    no other condition variable; the seek thread is still in the wait
    afterwards, a further turn changes nothing, and the frame hook at the
    target frame no longer notifies it. *)
Theorem reset_does_not_wake_seek_thread :
  seekPc seek_forward_blocked = SeekInFfwWait false
  /\ shouldRunThreads (resetPlayback seek_forward_blocked) = false
  /\ trace (resetPlayback seek_forward_blocked)
     = notify_one condVar :: detach SeekThreadId :: detach SavestateThreadId
       :: trace seek_forward_blocked
  /\ seekPc (resetPlayback seek_forward_blocked) = SeekInFfwWait false
  /\ SeekThread_turn (resetPlayback seek_forward_blocked)
     = Some (resetPlayback seek_forward_blocked)
  /\ prepareSlippiPlayback 500 (resetPlayback seek_forward_blocked)
     = Some (resetPlayback seek_forward_blocked).
Proof.
  assert (seekPc seek_forward_blocked = SeekInFfwWait false) as Hpc
    by (vm_compute; reflexivity).
  destruct (resetPlayback_leaves_ffw_wait seek_forward_blocked false Hpc)
    as (Hrun & Hp & Ht & Hh).
  split; [exact Hpc|]. split; [exact Hrun|].
  split; [vm_compute; reflexivity|].
  split; [exact Hp|]. split; [exact Ht|]. apply Hh.
Qed.

(** C8, the failing run: queue mode, replay bounded to frames [1000] to
    [2000], jump back requested at frame [1100].  The resolved target is
    frame [800], before the start bound, and the start bound is still
    [1000]; the end bound has been set to [INT_MAX]. *)
Theorem queue_jump_back_start_not_lowered :
  exists paused closest w',
    seek_begin queue_jump_back = Some (paused, closest, w')
    /\ targetFrameNum w' = 800
    /\ current_startFrame queue_jump_back = 1000
    /\ current_startFrame w' = 1000
    /\ current_endFrame w' = INT_MAX.
Proof.
  eexists _, _, _. split; [vm_compute; reflexivity|].
  split; [reflexivity|]. split; [reflexivity|]. split; reflexivity.
Qed.

(** The sibling path: the same seek as an absolute seek to frame [800]
    lowers the start bound to the target. *)
Example queue_absolute_seek_lowers_start :
  exists paused closest w',
    seek_begin (set_targetFrameNum 800 (set_shouldJumpBack false queue_jump_back))
    = Some (paused, closest, w')
    /\ targetFrameNum w' = 800
    /\ current_startFrame w' = 800.
Proof. eexists _, _, _. split; [vm_compute; reflexivity|]. split; reflexivity. Qed.

(** ** Further properties of the threads and the hook *)

Section PlaybackCoverage.

Context `{Externals}.

(** For a frame at or after the first frame, the rounding returns the
    latest interval frame at or before it. *)
Lemma nearestIntervalFrame_floor (frame firstFrame interval : Z) :
  in_s32 frame -> in_s32 firstFrame -> in_s32 interval -> 0 < interval ->
  firstFrame <= frame -> frame - firstFrame <= INT_MAX ->
  exists k,
    nearestIntervalFrame frame firstFrame interval = Some k
    /\ firstFrame <= k <= frame
    /\ frame < k + interval
    /\ (k - firstFrame) mod interval = 0.
Proof.
  intros Hf Hfi Hi Hpos Hle Hd.
  rewrite nearestIntervalFrame_pos by assumption.
  rewrite (wrap32_id (frame - firstFrame))
    by (unfold in_s32, INT_MIN, INT_MAX in *; lia).
  set (d := frame - firstFrame) in *.
  pose proof (Z.mod_pos_bound d interval Hpos) as Hm.
  pose proof (Z.mod_le d interval ltac:(lia) Hpos) as Hmd.
  rewrite wrap32_id by (unfold in_s32, INT_MIN, INT_MAX in *; lia).
  eexists. split; [reflexivity|].
  split; [lia|]. split; [lia|].
  replace (frame - d mod interval - firstFrame) with (d - d mod interval) by lia.
  rewrite Zminus_mod_idemp_r, Z.sub_diag. apply Z.mod_0_l. lia.
Qed.

(** X1: the savestate frame a seek rounds its clamped target to lies between
    the first savestate frame and the target, less than [FRAME_INTERVAL]
    below the target, and passes the interval test at the head of the
    savestate thread's loop: it is a frame on which that thread acts.  (The
    first savestate frame and the target are [s32] values and their
    difference is representable.) *)
Theorem closestStateFrame_on_interval (w : World) :
  in_s32 PLAYBACK_FIRST_SAVE -> in_s32 (targetFrameNum w) ->
  PLAYBACK_FIRST_SAVE <= targetFrameNum w ->
  targetFrameNum w - PLAYBACK_FIRST_SAVE <= INT_MAX ->
  exists closest,
    closestStateFrame w = Some closest
    /\ PLAYBACK_FIRST_SAVE <= closest <= targetFrameNum w
    /\ targetFrameNum w < closest + FRAME_INTERVAL
    /\ Z.rem (wrap32 (closest - PLAYBACK_FIRST_SAVE)) FRAME_INTERVAL = 0.
Proof.
  intros Hp Ht Hle Hd.
  destruct (nearestIntervalFrame_floor (targetFrameNum w) PLAYBACK_FIRST_SAVE
              FRAME_INTERVAL Ht Hp in_s32_FRAME_INTERVAL eq_refl Hle Hd)
    as (k & Hk & Hb & Hlt & Hm).
  exists k. split; [exact Hk|]. split; [exact Hb|]. split; [exact Hlt|].
  rewrite wrap32_id by (unfold in_s32, INT_MIN, INT_MAX in *; lia).
  apply Z.rem_mod_eq_0; [discriminate | exact Hm].
Qed.


(** What one pass of the savestate thread does to the stored diffs. *)
Lemma SavestateThread_iteration_futureDiffs (w : World) :
  futureDiffs (SavestateThread_iteration w) = futureDiffs w
  \/ (shouldRunThreads w = true
      /\ isDiffFrame (currentPlaybackFrame w)
      /\ currentPlaybackFrame w <> INT_MAX
      /\ futureDiffs w !! currentPlaybackFrame w = None
      /\ futureDiffs (SavestateThread_iteration w)
         = <[currentPlaybackFrame w := vcdiff_encode (iState w) (emuState w)]>
             (futureDiffs w)
      /\ asyncPending (SavestateThread_iteration w) = S (asyncPending w)).
Proof.
  unfold SavestateThread_iteration, isDiffFrame.
  destruct (shouldRunThreads w) eqn:Hrun; cbv [negb]; [|now left].
  destruct (Z.eqb_spec (Z.rem (wrap32 (currentPlaybackFrame w - PLAYBACK_FIRST_SAVE))
                          FRAME_INTERVAL) 0) as [Hal|Hal]; [|now left].
  destruct (Z.eqb_spec (currentPlaybackFrame w) INT_MAX) as [Hmax|Hmax]; [now left|].
  destruct (Z.eqb_spec (currentPlaybackFrame w) PLAYBACK_FIRST_SAVE) as [Hst|Hst].
  - left. rewrite andb_false_r. now destruct (inSlippiPlayback w).
  - rewrite andb_false_r, andb_true_r. cbv [negb].
    case_bool_decide as Hhas.
    + now left.
    + right. apply eq_None_not_Some in Hhas. repeat split; assumption.
Qed.

(** X2: a pass of the savestate thread never removes or replaces a stored
    diff. *)
Theorem savestate_keeps_diffs (w : World) (k : Z) (diff : bytes) :
  futureDiffs w !! k = Some diff ->
  futureDiffs (SavestateThread_iteration w) !! k = Some diff.
Proof.
  intros Hk.
  destruct (SavestateThread_iteration_futureDiffs w)
    as [->|(_ & _ & _ & Hnone & -> & _)]; [exact Hk|].
  rewrite lookup_insert_ne; [exact Hk|]. congruence.
Qed.

(** X3: when the threads run and the current frame is an interval frame
    other than the start frame (and not [INT_MAX]), a pass of the savestate
    thread leaves a diff stored under that frame; if none was stored, it is
    the encoding of the machine state against [iState], and one more
    [processDiff] task is launched. *)
Theorem savestate_stores_diff (w : World) :
  shouldRunThreads w = true ->
  isDiffFrame (currentPlaybackFrame w) ->
  currentPlaybackFrame w <> INT_MAX ->
  let w' := SavestateThread_iteration w in
  is_Some (futureDiffs w' !! currentPlaybackFrame w)
  /\ (futureDiffs w !! currentPlaybackFrame w = None ->
      futureDiffs w' !! currentPlaybackFrame w
      = Some (vcdiff_encode (iState w) (emuState w))
      /\ asyncPending w' = S (asyncPending w)).
Proof.
  intros Hrun [Hst Hal] Hmax w'. unfold w'.
  destruct (futureDiffs w !! currentPlaybackFrame w) as [d|] eqn:Hk.
  - split; [|discriminate]. exists d.
    destruct (SavestateThread_iteration_futureDiffs w)
      as [->|(_ & _ & _ & Hnone & _)]; [exact Hk | congruence].
  - assert (futureDiffs (SavestateThread_iteration w)
            = <[currentPlaybackFrame w := vcdiff_encode (iState w) (emuState w)]>
                (futureDiffs w)
            /\ asyncPending (SavestateThread_iteration w) = S (asyncPending w))
      as [E P].
    { unfold SavestateThread_iteration. rewrite Hrun. cbv [negb].
      rewrite Hal. change (0 =? 0) with true. cbv iota.
      destruct (Z.eqb_spec (currentPlaybackFrame w) INT_MAX); [contradiction|].
      destruct (Z.eqb_spec (currentPlaybackFrame w) PLAYBACK_FIRST_SAVE);
        [contradiction|].
      rewrite andb_false_r, andb_true_r. cbv [negb].
      case_bool_decide as Hhas; [rewrite Hk in Hhas; now destruct Hhas|].
      split; reflexivity. }
    rewrite E, lookup_insert_eq. split; [eauto|]. intros _. split; [reflexivity|exact P].
Qed.

(** What one pass of the savestate thread does to the reference state. *)
Lemma SavestateThread_iteration_reference (w : World) :
  (inSlippiPlayback (SavestateThread_iteration w) = inSlippiPlayback w
   /\ iState (SavestateThread_iteration w) = iState w)
  \/ (shouldRunThreads w = true
      /\ inSlippiPlayback w = false
      /\ currentPlaybackFrame w = PLAYBACK_FIRST_SAVE
      /\ inSlippiPlayback (SavestateThread_iteration w) = true
      /\ iState (SavestateThread_iteration w) = emuState w).
Proof.
  unfold SavestateThread_iteration.
  destruct (shouldRunThreads w) eqn:Hrun; cbv [negb]; [|left; now split].
  destruct (Z.rem (wrap32 (currentPlaybackFrame w - PLAYBACK_FIRST_SAVE))
              FRAME_INTERVAL =? 0); [|left; now split].
  destruct (currentPlaybackFrame w =? INT_MAX); [left; now split|].
  destruct (Z.eqb_spec (currentPlaybackFrame w) PLAYBACK_FIRST_SAVE) as [Hst|Hst].
  - destruct (inSlippiPlayback w) eqn:Hin; cbv [negb andb].
    + destruct (bool_decide _); left; now split.
    + right. repeat split. exact Hst.
  - rewrite andb_false_r, andb_true_r. cbv zeta iota.
    case_if; left; split; reflexivity.
Qed.

(** X4: once playback has begun a pass of the savestate thread keeps it on
    and leaves [iState] alone; and a pass turns playback on only while the
    threads run, at the first savestate frame, with [iState] then holding
    the machine state of that moment. *)
Theorem savestate_reference_once (w : World) :
  let w' := SavestateThread_iteration w in
  (inSlippiPlayback w = true ->
   inSlippiPlayback w' = true /\ iState w' = iState w)
  /\ (inSlippiPlayback w = false -> inSlippiPlayback w' = true ->
      shouldRunThreads w = true
      /\ currentPlaybackFrame w = PLAYBACK_FIRST_SAVE
      /\ iState w' = emuState w).
Proof.
  intros w'. unfold w'.
  destruct (SavestateThread_iteration_reference w)
    as [[Hi Hs]|(Hrun & Hin & Hst & Hi & Hs)].
  - split; [intros Hin; split; congruence | congruence].
  - split; [congruence | intros _ _; repeat split; assumption].
Qed.


(** [clearWatchSettingsStartEnd] writes the two bounds and nothing else. *)
Lemma clearWatchSettingsStartEnd_form (w : World) :
  clearWatchSettingsStartEnd w
  = set_current_endFrame (current_endFrame (clearWatchSettingsStartEnd w))
      (set_current_startFrame (current_startFrame (clearWatchSettingsStartEnd w)) w).
Proof.
  destruct w as [[]]. unfold clearWatchSettingsStartEnd. world_simpl.
  case_if; [|reflexivity]. case_if; world_simpl; case_if; reflexivity.
Qed.

(** The world a serviced seek has produced when it reaches the fast-forward
    test: the bounds and the target rewritten, the core paused, and at most
    one state loaded. *)
Lemma seek_begin_form (w : World) :
  exists t s e closest w',
    seek_begin w = Some (EState_eqb (coreState w) CORE_PAUSE, closest, w')
    /\ (let base :=
          set_targetFrameNum t
            (SetState CORE_PAUSE
               (set_current_endFrame e (set_current_startFrame s w))) in
        w' = base \/ exists b, w' = LoadFromBuffer b base).
Proof.
  destruct (seek_begin_spec w) as (w2 & closest & R & _ & B).
  assert (exists t s e,
             w2 = set_targetFrameNum t
                    (SetState CORE_PAUSE
                       (set_current_endFrame e (set_current_startFrame s w))))
    as (t & s & e & ->).
  { assert (w2 = snd (seek_resolve w)) as -> by now rewrite R.
    cbv beta iota zeta delta [seek_resolve snd].
    rewrite seek_clampTarget_form, seek_jumpTarget_form.
    destruct (String.eqb (replayComm_mode w) "queue").
    - rewrite (clearWatchSettingsStartEnd_form w). eexists _, _, _. reflexivity.
    - clear. destruct w as [[]]. eexists _, _, _. reflexivity. }
  eexists t, s, e, closest, _. split; [exact B|]. cbv zeta.
  unfold seek_loadState. case_if; [|now left]. case_if; [right; eauto|].
  destruct (_ !! closest); [right; eauto | now left].
Qed.

(** X5: a turn of the seek thread, wherever the thread stands, never writes
    the stored diffs, the two state buffers, the current or the latest
    frame, the playback and run flags or the diff counter. *)
Theorem seek_turn_keeps_archive (w w' : World) :
  SeekThread_turn w = Some w' ->
  futureDiffs w' = futureDiffs w
  /\ iState w' = iState w
  /\ cState w' = cState w
  /\ currentPlaybackFrame w' = currentPlaybackFrame w
  /\ latestFrame w' = latestFrame w
  /\ inSlippiPlayback w' = inSlippiPlayback w
  /\ shouldRunThreads w' = shouldRunThreads w
  /\ numDiffsProcessing w' = numDiffsProcessing w.
Proof.
  unfold SeekThread_turn.
  destruct (seekPc w) eqn:Hpc.
  - intros [= <-]. repeat split.
  - destruct (shouldRunThreads w) eqn:Hrun; cbv [negb];
      [|intros [= <-]; repeat split; exact Hrun].
    destruct (shouldSeek w); [|intros [= <-]; repeat split; exact Hrun].
    destruct (seek_begin_form w) as (t & s & e & closest & w1 & B & Hw1).
    revert B. generalize (EState_eqb (coreState w) CORE_PAUSE). intros paused B.
    rewrite B. cbv [mbind option_bind]. cbv zeta in Hw1.
    destruct (seek_needsFfw closest w1); intros [= <-];
      destruct Hw1 as [->|[b ->]]; destruct paused;
      repeat split; exact Hrun.
  - intros [= <-]. repeat split.
  - intros [= <-]. destruct paused; repeat split.
  - intros [= <-]. repeat split.
Qed.

(** The clamping, in closed form. *)
Lemma seek_clampTarget_value (w : World) :
  targetFrameNum (seek_clampTarget w)
  = Z.min (Z.max (targetFrameNum w) PLAYBACK_FIRST_SAVE) (latestFrame w).
Proof.
  destruct w as [[]]. unfold seek_clampTarget. world_simpl.
  case_if; world_simpl; case_if; world_simpl; zbool; lia.
Qed.

Lemma seek_jumpTarget_none (w : World) :
  shouldJumpForward w = false -> shouldJumpBack w = false ->
  seek_jumpTarget w = w.
Proof. intros Hf Hb. unfold seek_jumpTarget. now rewrite Hf, Hb. Qed.

Lemma seek_jumpTarget_back (w : World) :
  shouldJumpBack w = true ->
  targetFrameNum (seek_jumpTarget w)
  = wrap32 (currentPlaybackFrame w - jumpInterval).
Proof.
  destruct w as [[jb jf]]. cbv [shouldJumpBack g_playbackStatus]. intros ->.
  unfold seek_jumpTarget. world_simpl. now destruct jf.
Qed.

(** What the resolution of the target keeps and what it produces. *)
Lemma seek_resolve_keeps (w w2 : World) paused :
  seek_resolve w = (paused, w2) ->
  futureDiffs w2 = futureDiffs w
  /\ iState w2 = iState w
  /\ currentPlaybackFrame w2 = currentPlaybackFrame w
  /\ latestFrame w2 = latestFrame w
  /\ targetFrameNum w2
     = Z.min (Z.max (targetFrameNum (seek_jumpTarget w)) PLAYBACK_FIRST_SAVE)
         (latestFrame w)
  /\ emuState w2 = emuState w
  /\ trace w2 = Core_SetState CORE_PAUSE :: trace w.
Proof.
  intros R. destruct (seek_resolve_spec w) as (w2' & R' & Hs & _ & Ht & He & _).
  rewrite R in R'. injection R' as _ <-.
  assert (forall x : World,
             futureDiffs (seek_clampTarget (seek_jumpTarget x)) = futureDiffs x
             /\ iState (seek_clampTarget (seek_jumpTarget x)) = iState x
             /\ currentPlaybackFrame (seek_clampTarget (seek_jumpTarget x))
                = currentPlaybackFrame x) as K.
  { intros x. rewrite seek_clampTarget_form, seek_jumpTarget_form. repeat split. }
  destruct (K w) as (K1 & K2 & K3).
  rewrite Hs, K1, K2, K3, seek_clampTarget_value.
  rewrite (proj1 (seek_clampTarget_bounds (seek_jumpTarget w))).
  rewrite seek_jumpTarget_latestFrame. repeat split; assumption.
Qed.

(** X6: when loading a state is called for, [closestStateFrame] lies beyond
    the first savestate frame and a diff is stored for it, the seek loads
    the decoding of that diff against [iState], right after pausing the
    core. *)
Theorem seek_loads_decoded_diff (w : World) paused closest w' diff :
  seek_begin w = Some (paused, closest, w') ->
  isLoadingStateOptimal closest w' = true ->
  PLAYBACK_FIRST_SAVE < closest ->
  futureDiffs w !! closest = Some diff ->
  emuState w' = vcdiff_decode (iState w) diff
  /\ trace w'
     = State_LoadFromBuffer (vcdiff_decode (iState w) diff)
       :: Core_SetState CORE_PAUSE :: trace w.
Proof.
  intros B Hopt Hgt Hd.
  destruct (seek_begin_spec w) as (w2 & c & R & _ & B').
  destruct (seek_resolve_keeps w w2 _ R) as (Kf & Ki & _ & _ & _ & Ke & Kt).
  rewrite B in B'. injection B' as -> -> ->.
  unfold isLoadingStateOptimal in Hopt.
  rewrite seek_loadState_status in Hopt.
  unfold seek_loadState, isLoadingStateOptimal. rewrite Hopt, Kf, Hd, Ki.
  destruct (Z.leb_spec c PLAYBACK_FIRST_SAVE); [lia|].
  split; [reflexivity|]. cbv [LoadFromBuffer emit trace set_trace set_emuState].
  f_equal. exact Kt.
Qed.

(** X7: with a codec whose decoder inverts its encoder, a seek that rounds
    to a frame at which the savestate thread stored a fresh diff puts the
    machine back into the state it had when that diff was taken, as long as
    the stored diffs and [iState] are those the savestate thread left. *)
Theorem savestate_then_seek_round_trip (w0 w w' : World) paused :
  (forall reference current,
      vcdiff_decode reference (vcdiff_encode reference current) = current) ->
  shouldRunThreads w0 = true ->
  isDiffFrame (currentPlaybackFrame w0) ->
  PLAYBACK_FIRST_SAVE < currentPlaybackFrame w0 ->
  currentPlaybackFrame w0 <> INT_MAX ->
  futureDiffs w0 !! currentPlaybackFrame w0 = None ->
  futureDiffs w = futureDiffs (SavestateThread_iteration w0) ->
  iState w = iState w0 ->
  seek_begin w = Some (paused, currentPlaybackFrame w0, w') ->
  isLoadingStateOptimal (currentPlaybackFrame w0) w' = true ->
  emuState w' = emuState w0.
Proof.
  intros Hrt Hrun Hal Hgt Hmax Hnone Hfd Hi B Hopt.
  assert (futureDiffs w !! currentPlaybackFrame w0
          = Some (vcdiff_encode (iState w0) (emuState w0))) as Hk.
  { rewrite Hfd.
    destruct (SavestateThread_iteration_futureDiffs w0)
      as [E|(_ & _ & _ & _ & -> & _)]; [|apply lookup_insert_eq].
    exfalso. revert E. unfold SavestateThread_iteration.
    destruct Hal as [Hst Hal]. rewrite Hrun. cbv [negb].
    rewrite Hal. change (0 =? 0) with true. cbv iota.
    destruct (Z.eqb_spec (currentPlaybackFrame w0) INT_MAX); [contradiction|].
    destruct (Z.eqb_spec (currentPlaybackFrame w0) PLAYBACK_FIRST_SAVE);
      [contradiction|].
    rewrite andb_false_r, andb_true_r. cbv [negb].
    case_bool_decide as Hhas; [rewrite Hnone in Hhas; now destruct Hhas|].
    intros E. apply (f_equal (fun m => m !! currentPlaybackFrame w0)) in E.
    revert E.
    change (<[currentPlaybackFrame w0 := vcdiff_encode (iState w0) (emuState w0)]>
              (futureDiffs w0) !! currentPlaybackFrame w0
            = futureDiffs w0 !! currentPlaybackFrame w0 -> False).
    rewrite lookup_insert_eq, Hnone. discriminate. }
  destruct (seek_begin_spec w) as (w2 & c & R & _ & B').
  destruct (seek_resolve_keeps w w2 _ R) as (Kf & Ki & _).
  rewrite B in B'. injection B' as -> Hc ->. subst c.
  unfold isLoadingStateOptimal in Hopt.
  rewrite seek_loadState_status in Hopt.
  unfold seek_loadState, isLoadingStateOptimal. rewrite Hopt, Kf, Hk, Ki.
  destruct (Z.leb_spec (currentPlaybackFrame w0) PLAYBACK_FIRST_SAVE); [lia|].
  change (vcdiff_decode (iState w) (vcdiff_encode (iState w0) (emuState w0))
          = emuState w0).
  rewrite Hi. apply Hrt.
Qed.

(** X8: an absolute seek back to a frame of the first interval (from the
    first savestate frame up to one interval later, and not past the latest
    frame) rounds to the first savestate frame and loads [iState], keeping
    the target. *)
Theorem seek_first_interval_restores_reference (w : World) :
  shouldJumpForward w = false -> shouldJumpBack w = false ->
  in_s32 PLAYBACK_FIRST_SAVE -> in_s32 (targetFrameNum w) ->
  PLAYBACK_FIRST_SAVE <= targetFrameNum w ->
  targetFrameNum w < PLAYBACK_FIRST_SAVE + FRAME_INTERVAL ->
  targetFrameNum w <= latestFrame w ->
  targetFrameNum w < currentPlaybackFrame w ->
  exists paused w',
    seek_begin w = Some (paused, PLAYBACK_FIRST_SAVE, w')
    /\ targetFrameNum w' = targetFrameNum w
    /\ emuState w' = iState w
    /\ trace w'
       = State_LoadFromBuffer (iState w) :: Core_SetState CORE_PAUSE :: trace w.
Proof.
  intros Hf Hb Hp Ht Hlo Hhi Hla Hcur.
  destruct (seek_begin_spec w) as (w2 & c & R & C & B).
  destruct (seek_resolve_keeps w w2 _ R) as (Kf & Ki & Kc & Kl & Kt & Ke & Ktr).
  rewrite seek_jumpTarget_none in Kt by assumption.
  assert (targetFrameNum w2 = targetFrameNum w) as Kt' by lia.
  assert (c = PLAYBACK_FIRST_SAVE) as ->.
  { rewrite closestStateFrame_total, Kt' in C. injection C as <-.
    unfold FRAME_INTERVAL in *.
    rewrite (wrap32_id (targetFrameNum w - PLAYBACK_FIRST_SAVE))
      by (unfold in_s32, INT_MIN, INT_MAX in *; lia).
    rewrite Z.mod_small by lia.
    replace (targetFrameNum w - (targetFrameNum w - PLAYBACK_FIRST_SAVE))
      with PLAYBACK_FIRST_SAVE by lia.
    now apply wrap32_id. }
  eexists _, _. split; [exact B|].
  rewrite seek_loadState_status.
  split; [exact Kt'|].
  unfold seek_loadState, isLoadingStateOptimal. rewrite Kt', Kc.
  destruct (Z.ltb_spec (targetFrameNum w) (currentPlaybackFrame w)); [|lia].
  cbv [orb]. rewrite Z.leb_refl, Ki.
  split; [reflexivity|].
  cbv [LoadFromBuffer emit trace set_trace set_emuState]. f_equal. exact Ktr.
Qed.


(** X9: a jump back requested at most [jumpInterval] frames after the
    first savestate frame (which is not past the latest frame) lands on
    that frame: the turn loads [iState], does not fast-forward, clears the
    request and ends back at the loop. *)
Theorem jump_back_near_start (w : World) :
  seekPc w = SeekAtLoop -> shouldRunThreads w = true ->
  inSlippiPlayback w = true -> shouldJumpBack w = true ->
  in_s32 PLAYBACK_FIRST_SAVE -> in_s32 (currentPlaybackFrame w) ->
  PLAYBACK_FIRST_SAVE < currentPlaybackFrame w ->
  INT_MIN <= currentPlaybackFrame w - jumpInterval ->
  currentPlaybackFrame w - jumpInterval <= PLAYBACK_FIRST_SAVE ->
  PLAYBACK_FIRST_SAVE <= latestFrame w ->
  exists w',
    SeekThread_turn w = Some w'
    /\ seekPc w' = SeekAtLoop
    /\ emuState w' = iState w
    /\ isHardFFW w' = isHardFFW w
    /\ shouldJumpBack w' = false
    /\ targetFrameNum w' = INT_MAX.
Proof.
  intros Hpc Hrun Hin Hjb Hp Hc Hgt Hlo Hnear Hla.
  assert (shouldSeek w = true) as Hseek
    by (unfold shouldSeek; now rewrite Hin, Hjb).
  destruct (SeekThread_turn_serviced w Hpc Hrun Hseek)
    as (paused & closest & w1 & B & _ & _ & Hp1 & Hs & T).
  destruct (seek_begin_spec w) as (w2 & c & R & C & B').
  rewrite B in B'. injection B' as _ -> ->.
  destruct (seek_resolve_keeps w w2 _ R) as (Kf & Ki & Kc & Kl & Kt & Ke & _).
  rewrite seek_jumpTarget_back in Kt by assumption.
  unfold jumpInterval in *.
  rewrite wrap32_id in Kt by (unfold in_s32, INT_MIN, INT_MAX in *; lia).
  assert (targetFrameNum w2 = PLAYBACK_FIRST_SAVE) as Kt' by lia.
  assert (c = PLAYBACK_FIRST_SAVE) as ->.
  { rewrite closestStateFrame_total, Kt', Z.sub_diag in C. injection C as <-.
    change (wrap32 0 mod FRAME_INTERVAL) with 0. rewrite Z.sub_0_r.
    now apply wrap32_id. }
  assert (seek_loadState PLAYBACK_FIRST_SAVE w2 = LoadFromBuffer (iState w2) w2)
    as L.
  { unfold seek_loadState, isLoadingStateOptimal. rewrite Kt', Kc.
    destruct (Z.ltb_spec PLAYBACK_FIRST_SAVE (currentPlaybackFrame w)); [|lia].
    cbv [orb]. now rewrite Z.leb_refl. }
  rewrite L in T, Hp1.
  assert (seek_needsFfw PLAYBACK_FIRST_SAVE (LoadFromBuffer (iState w2) w2) = false)
    as N.
  { unfold seek_needsFfw.
    change (targetFrameNum (LoadFromBuffer (iState w2) w2)) with (targetFrameNum w2).
    now rewrite Kt', Z.eqb_refl. }
  rewrite N in T. eexists. split; [exact T|].
  change (seekPc (LoadFromBuffer (iState w2) w2)) with (seekPc w2) in Hp1.
  assert (isHardFFW w2 = isHardFFW w) as Kh.
  { destruct (seek_resolve_spec w) as (w2' & R' & Hs' & _).
    rewrite R in R'. injection R' as <-.
    rewrite Hs', seek_clampTarget_form, seek_jumpTarget_form. reflexivity. }
  destruct paused; (repeat split; [exact Hp1 | now rewrite <- Ki | exact Kh]).
Qed.

(** X10: when a serviced seek completes, both jump flags are off and the
    target is back at [INT_MAX], so nothing is pending, whatever was
    requested while the thread was in the fast-forward wait. *)
Theorem service_clears_requests (others : World -> World) (w : World) :
  seekPc w = SeekAtLoop -> shouldRunThreads w = true -> shouldSeek w = true ->
  exists w',
    SeekThread_service others w = Some w'
    /\ shouldJumpBack w' = false
    /\ shouldJumpForward w' = false
    /\ targetFrameNum w' = INT_MAX
    /\ shouldSeek w' = false.
Proof.
  intros Hpc Hrun Hseek.
  destruct (SeekThread_turn_serviced w Hpc Hrun Hseek)
    as (paused & closest & w1 & _ & _ & _ & Hp1 & _ & T).
  unfold SeekThread_service. rewrite T. cbv [mbind option_bind].
  assert (forall x : World,
             shouldJumpBack (seek_finish paused x) = false
             /\ shouldJumpForward (seek_finish paused x) = false
             /\ targetFrameNum (seek_finish paused x) = INT_MAX
             /\ shouldSeek (seek_finish paused x) = false) as F.
  { intros x. unfold shouldSeek. destruct paused; repeat split;
      apply andb_false_r. }
  destruct (seek_needsFfw closest w1).
  - change (seekPc (seek_ffwBegin paused w1)) with (SeekInFfwWait paused).
    cbv iota. unfold SeekThread_turn.
    change (seekPc (set_seekPc (SeekWoken paused) (others (seek_ffwBegin paused w1))))
      with (SeekWoken paused). cbv iota.
    eexists. split; [reflexivity|].
    exact (F (seek_ffwEnd (set_seekPc (SeekWoken paused)
                             (others (seek_ffwBegin paused w1))))).
  - change (seekPc (sleep (seek_finish paused w1)))
      with (seekPc (seek_finish paused w1)).
    rewrite (proj2 (seek_finish_env paused w1)), Hp1.
    eexists. split; [reflexivity|]. exact (F w1).
Qed.

(** X11: when the frame hook returns, [currentPlaybackFrame] has not grown
    and the target, the latest frame, the stored diffs, [iState], the
    playback and run flags, the diff counter, the core state and the
    machine state are as before; the seek thread's position changes only if
    playback is on and the frame has reached the target. *)
Theorem hook_keeps (frameIndex : Z) (w w' : World) :
  prepareSlippiPlayback frameIndex w = Some w' ->
  currentPlaybackFrame w' <= currentPlaybackFrame w
  /\ targetFrameNum w' = targetFrameNum w
  /\ latestFrame w' = latestFrame w
  /\ futureDiffs w' = futureDiffs w
  /\ iState w' = iState w
  /\ inSlippiPlayback w' = inSlippiPlayback w
  /\ shouldRunThreads w' = shouldRunThreads w
  /\ numDiffsProcessing w' = numDiffsProcessing w
  /\ coreState w' = coreState w
  /\ emuState w' = emuState w
  /\ (seekPc w' <> seekPc w ->
      inSlippiPlayback w = true /\ targetFrameNum w <= frameIndex).
Proof.
  destruct w as [[jb jf ip run hf sf lf cf tf la ist cst fd st sk]
                   mode sF eF cs emu oce ocf hc n ap pc tr].
  unfold prepareSlippiPlayback, tooManyDiffs. world_simpl.
  destruct (run && (n >? 3)); [discriminate|].
  destruct (run && (Z.rem (wrap32 (cf + 122)) FRAME_INTERVAL =? 0));
    world_simpl;
    (destruct ip; cbv [andb];
     [destruct (Z.geb_spec frameIndex tf) as [Hge|Hge];
      [destruct (Z.ltb_spec tf cf); world_simpl; destruct pc|]|];
     intros [= <-]; world_simpl;
     repeat split; try lia; try congruence).
Qed.

(** X12: when the seek thread is in the fast-forward wait, playback is on,
    the host is not held back and the frame has reached the target, the
    hook wakes the seek thread and sets [currentPlaybackFrame] to the
    smaller of itself and the target; the thread's next turn ends the fast
    forward: overclock off with factor [1], [isHardFFW] off, the target
    idle, and the core paused or running as it was before the seek. *)
Theorem hook_completes_fast_forward (frameIndex : Z) (w : World) paused :
  seekPc w = SeekInFfwWait paused ->
  inSlippiPlayback w = true -> tooManyDiffs w = false ->
  targetFrameNum w <= frameIndex ->
  exists w1 w2,
    prepareSlippiPlayback frameIndex w = Some w1
    /\ seekPc w1 = SeekWoken paused
    /\ currentPlaybackFrame w1
       = Z.min (currentPlaybackFrame w) (targetFrameNum w)
    /\ SeekThread_turn w1 = Some w2
    /\ seekPc w2 = SeekAtLoop
    /\ isHardFFW w2 = false /\ m_OCEnable w2 = false /\ m_OCFactor w2 = 1
    /\ targetFrameNum w2 = INT_MAX
    /\ coreState w2 = (if paused then CORE_PAUSE else CORE_RUN).
Proof.
  destruct w as [[jb jf ip run hf sf lf cf tf la ist cst fd st sk]
                   mode sF eF cs emu oce ocf hc n ap pc tr].
  unfold prepareSlippiPlayback. world_simpl.
  intros -> -> -> Hle.
  destruct (run && (Z.rem (wrap32 (cf + 122)) FRAME_INTERVAL =? 0));
    world_simpl; cbv [andb];
    (destruct (Z.geb_spec frameIndex tf) as [_|]; [|lia]);
    (destruct (Z.ltb_spec tf cf); world_simpl;
    eexists _, _; (split; [reflexivity|]); (split; [reflexivity|]);
    (split; [lia|]); unfold SeekThread_turn; world_simpl;
    (split; [reflexivity|]); destruct paused; repeat split).
Qed.


(** X13: after [resetPlayback] a pass of the savestate thread does nothing,
    and a seek thread standing at its loop exits at its next turn and stays
    exited. *)
Theorem idle_threads_stop_after_reset (w : World) :
  seekPc w = SeekAtLoop ->
  let w' := resetPlayback w in
  SavestateThread_iteration w' = w'
  /\ SeekThread_turn w' = Some (set_seekPc SeekExited w')
  /\ SeekThread_turn (set_seekPc SeekExited w') = Some (set_seekPc SeekExited w').
Proof.
  intros Hpc w'.
  destruct (resetPlayback_fields w) as (Hrun & _ & Hp & _).
  fold w' in Hrun, Hp.
  split; [unfold SavestateThread_iteration; now rewrite Hrun|].
  split; [unfold SeekThread_turn; now rewrite Hp, Hpc, Hrun|].
  reflexivity.
Qed.

(** X14: [clearWatchSettingsStartEnd] only widens the bounds: the start
    bound does not grow and the end bound does not shrink; unless the bounds
    were the defaults, the target lies within the new bounds; and a second
    call changes nothing.  (End bound and target at most [INT_MAX].) *)
Theorem clearWatch_widens (w : World) :
  current_endFrame w <= INT_MAX -> targetFrameNum w <= INT_MAX ->
  let w' := clearWatchSettingsStartEnd w in
  current_startFrame w' <= current_startFrame w
  /\ current_endFrame w <= current_endFrame w'
  /\ (current_startFrame w <> GAME_FIRST_FRAME \/ current_endFrame w <> INT_MAX ->
      current_startFrame w' <= targetFrameNum w <= current_endFrame w')
  /\ clearWatchSettingsStartEnd w' = w'.
Proof.
  destruct w as [[jb jf ip run hf sf lf cf tf la ist cst fd st sk]
                   mode sF eF cs emu oce ocf hc n ap pc tr].
  unfold clearWatchSettingsStartEnd. world_simpl. intros He Ht.
  destruct (Z.eqb_spec sF GAME_FIRST_FRAME) as [Es|Es];
    destruct (Z.eqb_spec eF INT_MAX) as [Ee|Ee]; cbv [negb orb];
    world_simpl;
    destruct (Z.ltb_spec tf sF) as [Hs|Hs]; world_simpl;
    destruct (Z.gtb_spec tf eF) as [Hg|Hg]; world_simpl;
    (split; [lia|]); (split; [lia|]); (split; [intros [?|?]; first [contradiction|lia]|]);
    repeat (case_if; world_simpl); zbool; first [reflexivity | lia].
Qed.

(** X15: a [processDiff] that begins and ends leaves the diff counter, and
    with it the hook's test, as they were. *)
Theorem processDiff_balanced (w : World) :
  in_s32 (numDiffsProcessing w) ->
  numDiffsProcessing (processDiff_exit (processDiff_enter w))
  = numDiffsProcessing w
  /\ tooManyDiffs (processDiff_exit (processDiff_enter w)) = tooManyDiffs w.
Proof.
  intros Hn. unfold tooManyDiffs.
  assert (numDiffsProcessing (processDiff_exit (processDiff_enter w))
          = numDiffsProcessing w) as E.
  { change (wrap32 (wrap32 (numDiffsProcessing w + 1) - 1) = numDiffsProcessing w).
    rewrite wrap32_sub_l.
    replace (numDiffsProcessing w + 1 - 1) with (numDiffsProcessing w) by lia.
    now apply wrap32_id. }
  split; [exact E|]. now rewrite E.
Qed.

(** [resetPlayback] empties the stored diffs or leaves them alone. *)
Lemma resetPlayback_futureDiffs (w : World) :
  futureDiffs (resetPlayback w) = ∅
  \/ futureDiffs (resetPlayback w) = futureDiffs w.
Proof.
  destruct w as [[jb jf ip run hf sf lf cf tf la ist cst fd st sk]].
  destruct run, st, sk; unfold resetPlayback; world_simpl; auto.
Qed.

(** The hook and the seek thread leave the stored diffs, the reference
    state and the playback flag alone. *)
Lemma prepareSlippiPlayback_reference (frameIndex : Z) (w w' : World) :
  prepareSlippiPlayback frameIndex w = Some w' ->
  futureDiffs w' = futureDiffs w
  /\ iState w' = iState w
  /\ inSlippiPlayback w' = inSlippiPlayback w.
Proof.
  unfold prepareSlippiPlayback.
  destruct (tooManyDiffs w); [discriminate|].
  case_if; (case_if; [case_if|]); intros [= <-]; repeat split;
    unfold notify; cbv [emit]; repeat case_match; reflexivity.
Qed.

Lemma SeekThread_turn_reference (w w' : World) :
  SeekThread_turn w = Some w' ->
  futureDiffs w' = futureDiffs w
  /\ iState w' = iState w
  /\ inSlippiPlayback w' = inSlippiPlayback w.
Proof.
  unfold SeekThread_turn.
  destruct (seekPc w) eqn:Hpc.
  - intros [= <-]. repeat split.
  - destruct (shouldRunThreads w); cbv [negb]; [|intros [= <-]; repeat split].
    destruct (shouldSeek w); [|intros [= <-]; repeat split].
    destruct (seek_begin_form w) as (t & s & e & closest & w1 & B & Hw1).
    revert B. generalize (EState_eqb (coreState w) CORE_PAUSE). intros paused B.
    rewrite B. cbv [mbind option_bind]. cbv zeta in Hw1.
    destruct (seek_needsFfw closest w1); intros [= <-];
      destruct Hw1 as [->|[b ->]]; destruct paused; repeat split.
  - intros [= <-]. repeat split.
  - intros [= <-]. destruct paused; repeat split.
  - intros [= <-]. repeat split.
Qed.

(** A pass of the savestate thread with nothing in between does nothing,
    waits, or is the pass after the wait. *)
Lemma SavestateThread_iteration_afterWait (w : World) :
  SavestateThread_iteration w = w
  \/ SavestateThread_iteration w = emit (cv_wait condVar) w
  \/ SavestateThread_iteration w = SavestateThread_afterWait w.
Proof.
  unfold SavestateThread_iteration, SavestateThread_afterWait.
  destruct (shouldRunThreads w); cbv [negb]; [|now left].
  destruct (Z.rem (wrap32 (currentPlaybackFrame w - PLAYBACK_FIRST_SAVE))
              FRAME_INTERVAL =? 0); [|right; now left].
  right. now right.
Qed.

(** The pass after the wait stores at most one diff, under the frame it
    reads, which is then neither the start frame nor [INT_MAX]. *)
Lemma SavestateThread_afterWait_futureDiffs (w : World) :
  futureDiffs (SavestateThread_afterWait w) = futureDiffs w
  \/ (currentPlaybackFrame w <> PLAYBACK_FIRST_SAVE
      /\ currentPlaybackFrame w <> INT_MAX
      /\ futureDiffs (SavestateThread_afterWait w)
         = <[currentPlaybackFrame w := vcdiff_encode (iState w) (emuState w)]>
             (futureDiffs w)).
Proof.
  unfold SavestateThread_afterWait.
  destruct (shouldRunThreads w); cbv [negb]; [|now left].
  destruct (Z.eqb_spec (currentPlaybackFrame w) INT_MAX) as [Hmax|Hmax]; [now left|].
  destruct (Z.eqb_spec (currentPlaybackFrame w) PLAYBACK_FIRST_SAVE) as [Hst|Hst].
  - left. rewrite andb_false_r. now destruct (inSlippiPlayback w).
  - rewrite andb_false_r, andb_true_r. cbv [negb].
    case_bool_decide as Hhas.
    + now left.
    + right. repeat split; assumption.
Qed.

(** Once playback has begun the pass after the wait keeps it on and leaves
    [iState] alone. *)
Lemma SavestateThread_afterWait_reference (w : World) :
  inSlippiPlayback w = true ->
  inSlippiPlayback (SavestateThread_afterWait w) = true
  /\ iState (SavestateThread_afterWait w) = iState w.
Proof.
  intros Hin. unfold SavestateThread_afterWait.
  destruct (shouldRunThreads w); cbv [negb]; [|now split].
  destruct (currentPlaybackFrame w =? INT_MAX); [now split|].
  rewrite Hin. cbv [negb andb].
  repeat case_if; (split; [exact Hin | reflexivity]).
Qed.

(** No step stores a diff except a pass of the savestate thread, and that
    one stores it under the current frame, which is then neither the start
    frame nor [INT_MAX]. *)
Lemma step_futureDiffs (a : Action) (w w' : World) :
  step a w = Some w' ->
  futureDiffs w' = futureDiffs w
  \/ futureDiffs w' = ∅
  \/ (currentPlaybackFrame w <> PLAYBACK_FIRST_SAVE
      /\ currentPlaybackFrame w <> INT_MAX
      /\ futureDiffs w'
         = <[currentPlaybackFrame w := vcdiff_encode (iState w) (emuState w)]>
             (futureDiffs w)).
Proof.
  destruct a; cbv [step].
  - intros [= <-]. now left.
  - intros [= <-]. now left.
  - intros [= <-]. now left.
  - intros Hh. left. apply (prepareSlippiPlayback_reference _ _ _ Hh).
  - intros [= <-].
    destruct (SavestateThread_iteration_afterWait w) as [-> | [-> | ->]];
      [now left | now left |].
    destruct (SavestateThread_afterWait_futureDiffs w); auto.
  - destruct (asyncPending w); [discriminate|]. intros [= <-]. now left.
  - destruct (0 <? numDiffsProcessing w); [|discriminate]. intros [= <-]. now left.
  - intros Ht. left. apply (SeekThread_turn_reference _ _ Ht).
  - intros [= <-]. destruct (resetPlayback_futureDiffs w); auto.
  - destruct (savestateWaits w); [discriminate|]. intros [= <-]. now left.
  - intros [= <-]. destruct (SavestateThread_afterWait_futureDiffs w); auto.
Qed.

(** X16: along every run of host, threads, diff tasks and resets, also
    when the host stores a frame number between the two reads of
    [currentPlaybackFrame] in a pass of the savestate thread, no diff is
    ever stored under the start frame or under [INT_MAX]. *)
Theorem diffs_stay_off_start (acts : list Action) (w w' : World) :
  diffsOffStart w -> exec acts w = Some w' -> diffsOffStart w'.
Proof.
  revert w. induction acts as [|a acts IH]; intros w Hinv.
  - intros [= <-]. exact Hinv.
  - cbn [exec]. destruct (step a w) as [w1|] eqn:Hstep; [|discriminate].
    cbv [mbind option_bind]. apply IH.
    destruct (step_futureDiffs a w w1 Hstep) as [E|[E|(Hst & Hmax & E)]];
      unfold diffsOffStart in *; rewrite E.
    + exact Hinv.
    + intros k [v Hv]. rewrite lookup_empty in Hv. discriminate.
    + intros k Hk. destruct (decide (currentPlaybackFrame w = k)) as [<-|Hne].
      * now split.
      * rewrite lookup_insert_ne in Hk by exact Hne. now apply Hinv.
Qed.

(** A step other than a reset keeps playback on and the reference state. *)
Lemma step_reference (a : Action) (w w' : World) :
  a <> HostResets -> step a w = Some w' ->
  inSlippiPlayback w = true ->
  inSlippiPlayback w' = true /\ iState w' = iState w.
Proof.
  intros Ha Hstep Hin. destruct a; cbv [step] in Hstep.
  - injection Hstep as <-. now split.
  - injection Hstep as <-. now split.
  - injection Hstep as <-. now split.
  - destruct (prepareSlippiPlayback_reference _ _ _ Hstep) as (_ & Hi & Hp).
    split; congruence.
  - injection Hstep as <-.
    destruct (SavestateThread_iteration_reference w)
      as [[Hi Hs]|(_ & Hin0 & _)]; [split; congruence | congruence].
  - destruct (asyncPending w); [discriminate|]. injection Hstep as <-. now split.
  - destruct (0 <? numDiffsProcessing w); [|discriminate].
    injection Hstep as <-. now split.
  - destruct (SeekThread_turn_reference _ _ Hstep) as (_ & Hi & Hp).
    split; congruence.
  - contradiction.
  - destruct (savestateWaits w); [discriminate|].
    injection Hstep as <-. now split.
  - injection Hstep as <-. now apply SavestateThread_afterWait_reference.
Qed.

(** X17: along every run without a reset, once playback has begun it stays
    on and [iState] is never written again. *)
Theorem reference_state_stable (acts : list Action) (w w' : World) :
  HostResets ∉ acts ->
  inSlippiPlayback w = true ->
  exec acts w = Some w' ->
  inSlippiPlayback w' = true /\ iState w' = iState w.
Proof.
  revert w. induction acts as [|a acts IH]; intros w Hno Hin.
  - intros [= <-]. now split.
  - cbn [exec]. destruct (step a w) as [w1|] eqn:Hstep; [|discriminate].
    cbv [mbind option_bind]. intros Hex.
    apply not_elem_of_cons in Hno as [Hne Hno].
    destruct (step_reference a w w1 (not_eq_sym Hne) Hstep Hin) as [Hin1 Hi1].
    destruct (IH w1 Hno Hin1 Hex) as [Hin' Hi'].
    split; [exact Hin' | congruence].
Qed.


(** X18: a serviced seek reaches the fast-forward test with the target
    [min (max t PLAYBACK_FIRST_SAVE) latestFrame], [t] being the target
    after the jump assignments; in particular, while the latest frame is
    still below the first savestate frame, every seek resolves to the
    latest frame. *)
Theorem seek_resolved_target (w : World) :
  exists paused closest w',
    seek_begin w = Some (paused, closest, w')
    /\ targetFrameNum w'
       = Z.min (Z.max (targetFrameNum (seek_jumpTarget w)) PLAYBACK_FIRST_SAVE)
           (latestFrame w)
    /\ (latestFrame w < PLAYBACK_FIRST_SAVE -> targetFrameNum w' = latestFrame w).
Proof.
  destruct (seek_begin_spec w) as (w2 & c & R & _ & B).
  destruct (seek_resolve_keeps w w2 _ R) as (_ & _ & _ & _ & Kt & _).
  eexists _, _, _. split; [exact B|].
  rewrite seek_loadState_status. split; [exact Kt|]. lia.
Qed.

End PlaybackCoverage.

(** ** Runs for the further properties *)

Lemma closestStateFrame_on_interval_witness :
  in_s32 PLAYBACK_FIRST_SAVE /\ in_s32 (targetFrameNum seek_ahead_no_diff)
  /\ PLAYBACK_FIRST_SAVE <= targetFrameNum seek_ahead_no_diff
  /\ targetFrameNum seek_ahead_no_diff - PLAYBACK_FIRST_SAVE <= INT_MAX
  /\ exists closest,
       closestStateFrame seek_ahead_no_diff = Some closest
       /\ PLAYBACK_FIRST_SAVE <= closest <= targetFrameNum seek_ahead_no_diff
       /\ targetFrameNum seek_ahead_no_diff < closest + FRAME_INTERVAL
       /\ Z.rem (wrap32 (closest - PLAYBACK_FIRST_SAVE)) FRAME_INTERVAL = 0.
Proof.
  assert (in_s32 PLAYBACK_FIRST_SAVE) as Hp by (vm_compute; split; discriminate).
  assert (in_s32 (targetFrameNum seek_ahead_no_diff)) as Ht
    by (vm_compute; split; discriminate).
  assert (PLAYBACK_FIRST_SAVE <= targetFrameNum seek_ahead_no_diff) as Hle
    by (vm_compute; discriminate).
  assert (targetFrameNum seek_ahead_no_diff - PLAYBACK_FIRST_SAVE <= INT_MAX)
    as Hd by (vm_compute; discriminate).
  split; [exact Hp|]. split; [exact Ht|]. split; [exact Hle|]. split; [exact Hd|].
  apply (closestStateFrame_on_interval seek_ahead_no_diff Hp Ht Hle Hd).
Defined.

Lemma savestate_keeps_diffs_witness :
  futureDiffs with_diff_778 !! 778 = Some [Byte.x03]
  /\ futureDiffs (SavestateThread_iteration with_diff_778) !! 778
     = Some [Byte.x03].
Proof.
  assert (futureDiffs with_diff_778 !! 778 = Some [Byte.x03]) as Hk
    by (vm_compute; reflexivity).
  split; [exact Hk|].
  apply (savestate_keeps_diffs with_diff_778 778 [Byte.x03] Hk).
Defined.

Lemma savestate_stores_diff_witness :
  shouldRunThreads at_interval_778 = true
  /\ isDiffFrame (currentPlaybackFrame at_interval_778)
  /\ currentPlaybackFrame at_interval_778 <> INT_MAX
  /\ (let w' := SavestateThread_iteration at_interval_778 in
      is_Some (futureDiffs w' !! currentPlaybackFrame at_interval_778)
      /\ (futureDiffs at_interval_778 !! currentPlaybackFrame at_interval_778
          = None ->
          futureDiffs w' !! currentPlaybackFrame at_interval_778
          = Some (vcdiff_encode (iState at_interval_778)
                    (emuState at_interval_778))
          /\ asyncPending w' = S (asyncPending at_interval_778))).
Proof.
  assert (isDiffFrame (currentPlaybackFrame at_interval_778)) as Hal
    by (split; vm_compute; [discriminate | reflexivity]).
  assert (currentPlaybackFrame at_interval_778 <> INT_MAX) as Hmax
    by (vm_compute; discriminate).
  split; [reflexivity|]. split; [exact Hal|]. split; [exact Hmax|].
  apply (savestate_stores_diff at_interval_778 eq_refl Hal Hmax).
Defined.

Lemma seek_turn_keeps_archive_witness :
  SeekThread_turn seek_forward = Some seek_forward_blocked
  /\ futureDiffs seek_forward_blocked = futureDiffs seek_forward
  /\ iState seek_forward_blocked = iState seek_forward
  /\ cState seek_forward_blocked = cState seek_forward
  /\ currentPlaybackFrame seek_forward_blocked = currentPlaybackFrame seek_forward
  /\ latestFrame seek_forward_blocked = latestFrame seek_forward
  /\ inSlippiPlayback seek_forward_blocked = inSlippiPlayback seek_forward
  /\ shouldRunThreads seek_forward_blocked = shouldRunThreads seek_forward
  /\ numDiffsProcessing seek_forward_blocked = numDiffsProcessing seek_forward.
Proof.
  assert (SeekThread_turn seek_forward = Some seek_forward_blocked) as Ht
    by (vm_compute; reflexivity).
  split; [exact Ht|].
  apply (seek_turn_keeps_archive seek_forward seek_forward_blocked Ht).
Defined.

Lemma seek_loads_decoded_diff_witness :
  exists paused w',
    seek_begin seek_back_with_diff = Some (paused, 778, w')
    /\ isLoadingStateOptimal 778 w' = true
    /\ PLAYBACK_FIRST_SAVE < 778
    /\ futureDiffs seek_back_with_diff !! 778 = Some [Byte.x03]
    /\ emuState w' = vcdiff_decode (iState seek_back_with_diff) [Byte.x03]
    /\ trace w'
       = State_LoadFromBuffer
           (vcdiff_decode (iState seek_back_with_diff) [Byte.x03])
         :: Core_SetState CORE_PAUSE :: trace seek_back_with_diff.
Proof.
  eexists _, _. split; [vm_compute; reflexivity|].
  split; [reflexivity|]. split; [reflexivity|].
  split; [vm_compute; reflexivity|].
  apply (seek_loads_decoded_diff seek_back_with_diff false 778);
    [vm_compute; reflexivity | reflexivity | reflexivity
    | vm_compute; reflexivity].
Defined.

Lemma savestate_then_seek_round_trip_witness :
  exists paused w',
    (forall reference current,
        vcdiff_decode reference (vcdiff_encode reference current) = current)
    /\ shouldRunThreads at_interval_778 = true
    /\ isDiffFrame (currentPlaybackFrame at_interval_778)
    /\ PLAYBACK_FIRST_SAVE < currentPlaybackFrame at_interval_778
    /\ currentPlaybackFrame at_interval_778 <> INT_MAX
    /\ futureDiffs at_interval_778 !! currentPlaybackFrame at_interval_778 = None
    /\ futureDiffs seek_back_after_savestate
       = futureDiffs (SavestateThread_iteration at_interval_778)
    /\ iState seek_back_after_savestate = iState at_interval_778
    /\ seek_begin seek_back_after_savestate
       = Some (paused, currentPlaybackFrame at_interval_778, w')
    /\ isLoadingStateOptimal (currentPlaybackFrame at_interval_778) w' = true
    /\ emuState w' = emuState at_interval_778.
Proof.
  assert (forall reference current,
             vcdiff_decode reference (vcdiff_encode reference current) = current)
    as Hrt by (intros; reflexivity).
  assert (isDiffFrame (currentPlaybackFrame at_interval_778)) as Hal
    by (split; vm_compute; [discriminate | reflexivity]).
  assert (currentPlaybackFrame at_interval_778 <> INT_MAX) as Hmax
    by (vm_compute; discriminate).
  assert (futureDiffs seek_back_after_savestate
          = futureDiffs (SavestateThread_iteration at_interval_778)) as Hfd
    by (vm_compute; reflexivity).
  assert (iState seek_back_after_savestate = iState at_interval_778) as Hi
    by (vm_compute; reflexivity).
  assert (futureDiffs at_interval_778 !! currentPlaybackFrame at_interval_778
          = None) as Hnone by (vm_compute; reflexivity).
  assert (PLAYBACK_FIRST_SAVE < currentPlaybackFrame at_interval_778) as Hgt
    by (vm_compute; reflexivity).
  eexists _, _. split; [exact Hrt|]. split; [reflexivity|].
  split; [exact Hal|]. split; [exact Hgt|]. split; [exact Hmax|].
  split; [exact Hnone|]. split; [exact Hfd|]. split; [exact Hi|].
  split; [vm_compute; reflexivity|]. split; [vm_compute; reflexivity|].
  apply (savestate_then_seek_round_trip at_interval_778
           seek_back_after_savestate _ false Hrt eq_refl Hal Hgt Hmax
           Hnone Hfd Hi);
    vm_compute; reflexivity.
Defined.

Lemma seek_first_interval_restores_reference_witness :
  shouldJumpForward seek_back_first_interval = false
  /\ shouldJumpBack seek_back_first_interval = false
  /\ in_s32 PLAYBACK_FIRST_SAVE
  /\ in_s32 (targetFrameNum seek_back_first_interval)
  /\ PLAYBACK_FIRST_SAVE <= targetFrameNum seek_back_first_interval
  /\ targetFrameNum seek_back_first_interval
     < PLAYBACK_FIRST_SAVE + FRAME_INTERVAL
  /\ targetFrameNum seek_back_first_interval
     <= latestFrame seek_back_first_interval
  /\ targetFrameNum seek_back_first_interval
     < currentPlaybackFrame seek_back_first_interval
  /\ exists paused w',
       seek_begin seek_back_first_interval
       = Some (paused, PLAYBACK_FIRST_SAVE, w')
       /\ targetFrameNum w' = targetFrameNum seek_back_first_interval
       /\ emuState w' = iState seek_back_first_interval
       /\ trace w'
          = State_LoadFromBuffer (iState seek_back_first_interval)
            :: Core_SetState CORE_PAUSE :: trace seek_back_first_interval.
Proof.
  assert (in_s32 PLAYBACK_FIRST_SAVE) as Hp by (vm_compute; split; discriminate).
  assert (in_s32 (targetFrameNum seek_back_first_interval)) as Ht
    by (vm_compute; split; discriminate).
  assert (PLAYBACK_FIRST_SAVE <= targetFrameNum seek_back_first_interval) as H1
    by (vm_compute; discriminate).
  assert (targetFrameNum seek_back_first_interval
          <= latestFrame seek_back_first_interval) as H3
    by (vm_compute; discriminate).
  split; [reflexivity|]. split; [reflexivity|]. split; [exact Hp|].
  split; [exact Ht|]. split; [exact H1|]. split; [reflexivity|].
  split; [exact H3|]. split; [reflexivity|].
  apply (seek_first_interval_restores_reference seek_back_first_interval
           eq_refl eq_refl Hp Ht H1 eq_refl H3 eq_refl).
Defined.

Lemma jump_back_near_start_witness :
  seekPc jump_back_at_100 = SeekAtLoop
  /\ shouldRunThreads jump_back_at_100 = true
  /\ inSlippiPlayback jump_back_at_100 = true
  /\ shouldJumpBack jump_back_at_100 = true
  /\ in_s32 PLAYBACK_FIRST_SAVE
  /\ in_s32 (currentPlaybackFrame jump_back_at_100)
  /\ PLAYBACK_FIRST_SAVE < currentPlaybackFrame jump_back_at_100
  /\ INT_MIN <= currentPlaybackFrame jump_back_at_100 - jumpInterval
  /\ currentPlaybackFrame jump_back_at_100 - jumpInterval <= PLAYBACK_FIRST_SAVE
  /\ PLAYBACK_FIRST_SAVE <= latestFrame jump_back_at_100
  /\ exists w',
       SeekThread_turn jump_back_at_100 = Some w'
       /\ seekPc w' = SeekAtLoop
       /\ emuState w' = iState jump_back_at_100
       /\ isHardFFW w' = isHardFFW jump_back_at_100
       /\ shouldJumpBack w' = false
       /\ targetFrameNum w' = INT_MAX.
Proof.
  assert (in_s32 PLAYBACK_FIRST_SAVE) as Hp by (vm_compute; split; discriminate).
  assert (in_s32 (currentPlaybackFrame jump_back_at_100)) as Hc
    by (vm_compute; split; discriminate).
  assert (INT_MIN <= currentPlaybackFrame jump_back_at_100 - jumpInterval) as H1
    by (vm_compute; discriminate).
  assert (currentPlaybackFrame jump_back_at_100 - jumpInterval
          <= PLAYBACK_FIRST_SAVE) as H2 by (vm_compute; discriminate).
  assert (PLAYBACK_FIRST_SAVE <= latestFrame jump_back_at_100) as H3
    by (vm_compute; discriminate).
  split; [reflexivity|]. split; [reflexivity|]. split; [reflexivity|].
  split; [reflexivity|]. split; [exact Hp|]. split; [exact Hc|].
  split; [reflexivity|]. split; [exact H1|]. split; [exact H2|].
  split; [exact H3|].
  apply (jump_back_near_start jump_back_at_100 eq_refl eq_refl eq_refl eq_refl
           Hp Hc eq_refl H1 H2 H3).
Defined.

Lemma service_clears_requests_witness :
  seekPc seek_forward = SeekAtLoop
  /\ shouldRunThreads seek_forward = true
  /\ shouldSeek seek_forward = true
  /\ exists w',
       SeekThread_service (set_shouldJumpForward true) seek_forward = Some w'
       /\ shouldJumpBack w' = false
       /\ shouldJumpForward w' = false
       /\ targetFrameNum w' = INT_MAX
       /\ shouldSeek w' = false.
Proof.
  split; [reflexivity|]. split; [reflexivity|]. split; [reflexivity|].
  apply (service_clears_requests (set_shouldJumpForward true) seek_forward);
    reflexivity.
Defined.

Lemma hook_keeps_witness :
  exists w',
    prepareSlippiPlayback 500 seek_forward_blocked = Some w'
    /\ currentPlaybackFrame w' <= currentPlaybackFrame seek_forward_blocked
    /\ targetFrameNum w' = targetFrameNum seek_forward_blocked
    /\ latestFrame w' = latestFrame seek_forward_blocked
    /\ futureDiffs w' = futureDiffs seek_forward_blocked
    /\ iState w' = iState seek_forward_blocked
    /\ inSlippiPlayback w' = inSlippiPlayback seek_forward_blocked
    /\ shouldRunThreads w' = shouldRunThreads seek_forward_blocked
    /\ numDiffsProcessing w' = numDiffsProcessing seek_forward_blocked
    /\ coreState w' = coreState seek_forward_blocked
    /\ emuState w' = emuState seek_forward_blocked
    /\ (seekPc w' <> seekPc seek_forward_blocked ->
        inSlippiPlayback seek_forward_blocked = true
        /\ targetFrameNum seek_forward_blocked <= 500).
Proof.
  eexists. split; [vm_compute; reflexivity|].
  apply (hook_keeps 500 seek_forward_blocked). vm_compute. reflexivity.
Defined.

Lemma hook_completes_fast_forward_witness :
  seekPc seek_forward_blocked = SeekInFfwWait false
  /\ inSlippiPlayback seek_forward_blocked = true
  /\ tooManyDiffs seek_forward_blocked = false
  /\ targetFrameNum seek_forward_blocked <= 500
  /\ exists w1 w2,
       prepareSlippiPlayback 500 seek_forward_blocked = Some w1
       /\ seekPc w1 = SeekWoken false
       /\ currentPlaybackFrame w1
          = Z.min (currentPlaybackFrame seek_forward_blocked)
              (targetFrameNum seek_forward_blocked)
       /\ SeekThread_turn w1 = Some w2
       /\ seekPc w2 = SeekAtLoop
       /\ isHardFFW w2 = false /\ m_OCEnable w2 = false /\ m_OCFactor w2 = 1
       /\ targetFrameNum w2 = INT_MAX
       /\ coreState w2 = (if false then CORE_PAUSE else CORE_RUN).
Proof.
  assert (seekPc seek_forward_blocked = SeekInFfwWait false) as Hpc
    by (vm_compute; reflexivity).
  assert (inSlippiPlayback seek_forward_blocked = true) as Hin
    by (vm_compute; reflexivity).
  assert (tooManyDiffs seek_forward_blocked = false) as Hfree
    by (vm_compute; reflexivity).
  assert (targetFrameNum seek_forward_blocked <= 500) as Hle
    by (vm_compute; discriminate).
  split; [exact Hpc|]. split; [exact Hin|]. split; [exact Hfree|].
  split; [exact Hle|].
  apply (hook_completes_fast_forward 500 seek_forward_blocked false
           Hpc Hin Hfree Hle).
Defined.

Lemma idle_threads_stop_after_reset_witness :
  seekPc playing = SeekAtLoop
  /\ (let w' := resetPlayback playing in
      SavestateThread_iteration w' = w'
      /\ SeekThread_turn w' = Some (set_seekPc SeekExited w')
      /\ SeekThread_turn (set_seekPc SeekExited w')
         = Some (set_seekPc SeekExited w')).
Proof.
  split; [reflexivity|].
  apply (idle_threads_stop_after_reset playing eq_refl).
Defined.

Lemma clearWatch_widens_witness :
  current_endFrame queue_seek_800 <= INT_MAX
  /\ targetFrameNum queue_seek_800 <= INT_MAX
  /\ (let w' := clearWatchSettingsStartEnd queue_seek_800 in
      current_startFrame w' <= current_startFrame queue_seek_800
      /\ current_endFrame queue_seek_800 <= current_endFrame w'
      /\ (current_startFrame queue_seek_800 <> GAME_FIRST_FRAME
          \/ current_endFrame queue_seek_800 <> INT_MAX ->
          current_startFrame w' <= targetFrameNum queue_seek_800
          <= current_endFrame w')
      /\ clearWatchSettingsStartEnd w' = w').
Proof.
  assert (current_endFrame queue_seek_800 <= INT_MAX) as He
    by (vm_compute; discriminate).
  assert (targetFrameNum queue_seek_800 <= INT_MAX) as Ht
    by (vm_compute; discriminate).
  split; [exact He|]. split; [exact Ht|].
  apply (clearWatch_widens queue_seek_800 He Ht).
Defined.

Lemma processDiff_balanced_witness :
  in_s32 (numDiffsProcessing playing)
  /\ numDiffsProcessing (processDiff_exit (processDiff_enter playing))
     = numDiffsProcessing playing
  /\ tooManyDiffs (processDiff_exit (processDiff_enter playing))
     = tooManyDiffs playing.
Proof.
  assert (in_s32 (numDiffsProcessing playing)) as Hn
    by (vm_compute; split; discriminate).
  split; [exact Hn|]. apply (processDiff_balanced playing Hn).
Defined.

(** The frames with a stored diff need not be interval frames: when the
    host moves on to frame [779] between the two reads of
    [currentPlaybackFrame] in a pass of the savestate thread, the diff of
    that pass is stored under [779]. *)
Example savestate_pass_stores_off_interval :
  exists w',
    exec frame_moves_during_pass playing = Some w'
    /\ is_Some (futureDiffs w' !! 779)
    /\ futureDiffs w' !! 778 = None
    /\ Z.rem (wrap32 (779 - PLAYBACK_FIRST_SAVE)) FRAME_INTERVAL <> 0.
Proof.
  eexists. split; [vm_compute; reflexivity|].
  split; [vm_compute; eexists; reflexivity|].
  split; [vm_compute; reflexivity|]. vm_compute. discriminate.
Qed.

Lemma diffs_stay_off_start_witness :
  exists w',
    diffsOffStart playing
    /\ exec frame_moves_during_pass playing = Some w'
    /\ diffsOffStart w'.
Proof.
  assert (diffsOffStart playing) as Hinv.
  { intros k [v Hv]. vm_compute in Hv. discriminate. }
  eexists. split; [exact Hinv|]. split; [vm_compute; reflexivity|].
  apply (diffs_stay_off_start frame_moves_during_pass playing _ Hinv).
  vm_compute. reflexivity.
Defined.

Lemma reference_state_stable_witness :
  exists w',
    (HostResets ∉ one_interval)
    /\ inSlippiPlayback playing = true
    /\ exec one_interval playing = Some w'
    /\ inSlippiPlayback w' = true /\ iState w' = iState playing.
Proof.
  assert (HostResets ∉ one_interval) as Hno.
  { unfold one_interval. intros Hin.
    repeat (apply elem_of_cons in Hin as [Hin|Hin]; [discriminate|]).
    inversion Hin. }
  eexists. split; [exact Hno|]. split; [reflexivity|].
  split; [vm_compute; reflexivity|].
  apply (reference_state_stable one_interval playing _ Hno eq_refl).
  vm_compute. reflexivity.
Defined.
